(** * vyked service bus ([vyked/bus.py]): TCP bus and pub/sub bus

    A shallow embedding of [TCPBus] and [PubSubBus].  Python dictionaries are
    finite maps, exceptions are an error monad, tasks handed to the event
    loop ([asyncio.async]) are entries of an explicit effect log, and the
    collaborators the bus only calls (registry client, protocol handles,
    hosts, service clients) are records holding what the bus reads from
    them. *)

From Stdlib Require Import ZArith Ascii String List DecimalString.
From stdpp Require Import base option list gmap strings.

Local Open Scope string_scope.
Local Open Scope Z_scope.

(** ** Python values and exceptions *)

Module Py.

(** The values the bus inspects: [None], integers and strings. *)
Inductive pyval : Type :=
  | VNone
  | VInt (z : Z)
  | VStr (s : string).

Global Instance pyval_eq_dec : EqDecision pyval.
Proof. solve_decision. Defined.

Definition pyval_encode (v : pyval) : unit + (Z + string) :=
  match v with
  | VNone => inl tt
  | VInt z => inr (inl z)
  | VStr s => inr (inr s)
  end.

Definition pyval_decode (x : unit + (Z + string)) : pyval :=
  match x with
  | inl _ => VNone
  | inr (inl z) => VInt z
  | inr (inr s) => VStr s
  end.

Global Instance pyval_countable : Countable pyval.
Proof.
  apply (inj_countable' pyval_encode pyval_decode).
  by intros [].
Defined.

(** [bool(v)]. *)
Definition truthy (v : pyval) : bool :=
  match v with
  | VNone => false
  | VInt z => negb (z =? 0)
  | VStr s => negb (String.eqb s "")
  end.

(** [v == w]. *)
Definition py_eq (v w : pyval) : bool := bool_decide (v = w).

(** [str(v)]. *)
Definition py_str (v : pyval) : string :=
  match v with
  | VNone => "None"
  | VInt z => NilZero.string_of_int (Z.to_int z)
  | VStr s => s
  end.

Inductive exn : Type :=
  | KeyError
  | IndexError
  | ValueError
  | TypeError
  | AttributeError
  | ClientNotFoundError
  | StopIteration
  | OSError
  | ClientDisconnected
  | RetriesExceeded.

Global Instance exn_eq_dec : EqDecision exn.
Proof. solve_decision. Defined.

(** A computation that returns a value or raises. *)
Inductive result (A : Type) : Type :=
  | Ok (a : A)
  | Raise (e : exn).
Global Arguments Ok {A} a.
Global Arguments Raise {A} e.

Definition bind {A B} (r : result A) (k : A → result B) : result B :=
  match r with
  | Ok a => k a
  | Raise e => Raise e
  end.

(** [d[k]] on a dictionary: [KeyError] when the key is absent. *)
Definition getitem {K} `{Countable K} {V} (d : gmap K V) (k : K) : result V :=
  match d !! k with
  | Some v => Ok v
  | None => Raise KeyError
  end.

(** [a + b] on strings; anything else is a [TypeError] here. *)
Definition as_str (v : pyval) : result string :=
  match v with
  | VStr s => Ok s
  | _ => Raise TypeError
  end.

(** [s.split(sep)] with an explicit one-character separator: empty fields
    are kept and the empty string splits into one empty field. *)
Fixpoint split (sep : ascii) (s : string) : list string :=
  match s with
  | EmptyString => [EmptyString]
  | String c rest =>
      if Ascii.eqb c sep then EmptyString :: split sep rest
      else match split sep rest with
           | hd :: tl => String c hd :: tl
           | [] => [String c EmptyString]
           end
  end.

(** [sep.join(parts)]. *)
Fixpoint join (sep : string) (parts : list string) : string :=
  match parts with
  | [] => EmptyString
  | [p] => p
  | p :: rest => p ++ sep ++ join sep rest
  end.

(** The character [c] does not occur in [s]. *)
Fixpoint lacks (c : ascii) (s : string) : bool :=
  match s with
  | EmptyString => true
  | String d rest => negb (Ascii.eqb d c) && lacks c rest
  end.

End Py.
Import Py.

Notation "'let!' x ':=' r 'in' k" := (bind r (λ x, k))
  (at level 10, x pattern, r at level 100, k at level 200, only parsing).

Definition slash : ascii := "/"%char.

(** ** The pub/sub bus *)

Module PubSubBus.

(** One entry of the registry's answer to [get_subscribers]: a dictionary
    with the keys [name], [version], [host], [port], [node_id], [strategy]. *)
Record Subscriber : Type := mkSubscriber {
  sub_name : pyval;
  sub_version : pyval;
  sub_host : pyval;
  sub_port : pyval;
  sub_node_id : pyval;
  sub_strategy : pyval
}.

(** The tuple [(host, port, node_id, strategy)] stored per group member;
    [value[i][2]] is the node id and [value[i][3]] the strategy. *)
Definition Meta : Type := (pyval * pyval * pyval * pyval)%type.
Definition meta_node_id (m : Meta) : pyval := m.1.2.
Definition meta_strategy (m : Meta) : pyval := m.2.

Definition GroupKey : Type := (pyval * pyval)%type.

(** [strategies[key].append(v)] on the [defaultdict(list)]; the dictionary
    is kept as an association list in order of first insertion, the order
    in which [strategies.items()] is then walked. *)
Fixpoint strategies_append (key : GroupKey) (v : Meta)
    (strategies : list (GroupKey * list Meta)) : list (GroupKey * list Meta) :=
  match strategies with
  | [] => [(key, [v])]
  | (k, vs) :: rest =>
      if decide (k = key) then (k, (vs ++ [v])%list) :: rest
      else (k, vs) :: strategies_append key v rest
  end.

Definition group_subscribers (subscribers : list Subscriber)
    : list (GroupKey * list Meta) :=
  fold_left
    (λ strategies s,
       strategies_append (sub_name s, sub_version s)
         (sub_host s, sub_port s, sub_node_id s, sub_strategy s) strategies)
    subscribers [].

(** [random.choice(seq)]: the element at a random index below [len(seq)];
    [r] is the raw draw of the generator. *)
Definition random_choice {A} (r : nat) (seq : list A) : result A :=
  match seq !! (r mod length seq)%nat with
  | Some a => Ok a
  | None => Raise IndexError
  end.

(** What the registry client offers to the pub/sub bus. *)
Record RegistryClient : Type := mkRegistryClient {
  get_subscribers : string → pyval → string → result (list Subscriber)
}.

(** A local service client: its identity and the names [getattr] finds. *)
Record ServiceClient : Type := mkServiceClient {
  sc_name : pyval;
  sc_version : pyval;
  sc_attrs : list string
}.

(** The transport handle built by [create_pubsub_handler]. *)
Record PubSub : Type := mkPubSub { ps_host : pyval; ps_port : pyval }.

Record t : Type := mkBus {
  _host : pyval;
  _port : pyval;
  _pubsub_handler : option PubSub;
  _registry_client : RegistryClient;
  _clients : option (list ServiceClient)
}.

(** [__init__]: no handler and no clients yet. *)
Definition init (pubsub_host pubsub_port : pyval) (registry_client : RegistryClient) : t :=
  {| _host := pubsub_host; _port := pubsub_port; _pubsub_handler := None;
     _registry_client := registry_client; _clients := None |}.

(** [create_pubsub_handler]. *)
Definition create_pubsub_handler (bus : t) : t :=
  {| _host := _host bus; _port := _port bus;
     _pubsub_handler := Some (mkPubSub (_host bus) (_port bus));
     _registry_client := _registry_client bus; _clients := _clients bus |}.

(** [_get_pubsub_key(service, version, endpoint, node_id=None)].  Only
    [version] goes through [str]; [str.join] raises [TypeError] on an item
    that is not a string. *)
Definition _get_pubsub_key (service : string) (version : pyval) (endpoint : string)
    (node_id : pyval) : result string :=
  if truthy node_id then
    let! n := as_str node_id in
    Ok (join "/" [service; py_str version; endpoint; n])
  else Ok (join "/" [service; py_str version; endpoint]).

Section WithJson.

(** [json.dumps(payload, cls=VykedEncoder)] and [json.loads]; the encoder
    class lives outside this file. *)
Context {Payload Kwargs : Type}.
Variable json_dumps : Payload → string.
Variable json_loads : string → result Kwargs.

(** The tasks handed to the event loop with [asyncio.async]. *)
Inductive task : Type :=
  | TransportPublish (topic : string) (data : string)
  | XPublish (service : string) (version : pyval) (endpoint : string) (payload : Payload)
  | HandlerCall (client : ServiceClient) (endpoint : string) (kwargs : Kwargs).

(** [self._pubsub_handler.publish]: attribute lookup on [None] fails. *)
Definition handler_publish (bus : t) : result PubSub :=
  match _pubsub_handler bus with
  | Some h => Ok h
  | None => Raise AttributeError
  end.

(** [publish(service, version, endpoint, payload)]: the tasks scheduled, in
    order. *)
Definition publish (bus : t) (service : string) (version : pyval) (endpoint : string)
    (payload : Payload) : result (list task) :=
  let! endpoint_key := _get_pubsub_key service version endpoint VNone in
  let! _ := handler_publish bus in
  Ok [TransportPublish endpoint_key (json_dumps payload);
      XPublish service version endpoint payload].

(** The target picked for one group: [value[0]] when it is tagged LEADER,
    a random member otherwise.  [draws k] is the generator's k-th draw; the
    index of the next unused draw is returned with the node id. *)
Definition select_node_id (draws : nat → nat) (k : nat) (value : list Meta)
    : result (pyval * nat) :=
  match value with
  | [] => Raise IndexError
  | first :: _ =>
      if py_eq (meta_strategy first) (VStr "LEADER") then Ok (meta_node_id first, k)
      else
        let! random_metadata := random_choice (draws k) value in
        Ok (meta_node_id random_metadata, S k)
  end.

(** The loop [for key, value in strategies.items()]; the tasks scheduled
    before an exception stay scheduled. *)
Fixpoint xpublish_loop (bus : t) (service : string) (version : pyval) (endpoint : string)
    (payload : Payload) (draws : nat → nat) (k : nat)
    (strategies : list (GroupKey * list Meta)) : list task * result unit :=
  match strategies with
  | [] => ([], Ok tt)
  | (key, value) :: rest =>
      let step :=
        let! (node_id, k') := select_node_id draws k value in
        let! endpoint_key := _get_pubsub_key service version endpoint node_id in
        let! _ := handler_publish bus in
        Ok (TransportPublish endpoint_key (json_dumps payload), k') in
      match step with
      | Raise e => ([], Raise e)
      | Ok (tk, k') =>
          let '(tks, r) := xpublish_loop bus service version endpoint payload draws k' rest in
          (tk :: tks, r)
      end
  end.

(** [xpublish(service, version, endpoint, payload)]. *)
Definition xpublish (bus : t) (draws : nat → nat) (service : string) (version : pyval)
    (endpoint : string) (payload : Payload) : list task * result unit :=
  match get_subscribers (_registry_client bus) service version endpoint with
  | Raise e => ([], Raise e)
  | Ok subscribers =>
      xpublish_loop bus service version endpoint payload draws 0
        (group_subscribers subscribers)
  end.

(** The first lines of [subscription_handler]: split the topic and unpack
    it into three or four names ([ValueError] on any other count). *)
Definition parse_topic (endpoint : string)
    : result (string * string * string * option string) :=
  let elements := split slash endpoint in
  if (3 <? length elements)%nat then
    match elements with
    | [service; version; endpoint; node_id] => Ok (service, version, endpoint, Some node_id)
    | _ => Raise ValueError
    end
  else
    match elements with
    | [service; version; endpoint] => Ok (service, version, endpoint, None)
    | _ => Raise ValueError
    end.

(** [getattr(client, endpoint)]. *)
Definition client_getattr (client : ServiceClient) (name : string) : result string :=
  if bool_decide (name ∈ sc_attrs client) then Ok name else Raise AttributeError.

(** [subscription_handler(endpoint, payload)]. *)
Definition subscription_handler (bus : t) (endpoint : string) (payload : string)
    : result (list task) :=
  let! (service, version, endpoint, _) := parse_topic endpoint in
  let! clients :=
    match _clients bus with
    | Some cs => Ok cs
    | None => Raise TypeError
    end in
  let matching :=
    filter (λ sc, py_eq (sc_name sc) (VStr service) && py_eq (sc_version sc) (VStr version) = true)
      clients in
  let! client :=
    match matching with
    | c :: _ => Ok c
    | [] => Raise IndexError
    end in
  let! func := client_getattr client endpoint in
  let! kwargs := json_loads payload in
  Ok [HandlerCall client func kwargs].

(** The loop runs every scheduled task to its end; what reaches the
    transport is returned as (topic, data) pairs.  An exception inside
    [xpublish] ends that task only. *)
Definition published (tk : task) : list (string * string) :=
  match tk with
  | TransportPublish topic data => [(topic, data)]
  | _ => []
  end.

Definition run_task (bus : t) (draws : nat → nat) (tk : task) : list (string * string) :=
  match tk with
  | TransportPublish topic data => [(topic, data)]
  | XPublish service version endpoint payload =>
      flat_map published (xpublish bus draws service version endpoint payload).1
  | HandlerCall _ _ _ => []
  end.

Definition run_tasks (bus : t) (draws : nat → nat) (tasks : list task) : list (string * string) :=
  flat_map (run_task bus draws) tasks.

End WithJson.

End PubSubBus.

(** ** The TCP bus *)

Module TCPBus.

(** A packet is a dictionary from key names to values. *)
Abbreviation Packet := (gmap string pyval).

(** [(host, port, node_id, service_type)], the tuple the registry returns. *)
Definition Address : Type := (pyval * pyval * pyval * pyval)%type.

(** What the registry client offers to the TCP bus. *)
Record RegistryClient : Type := mkRegistryClient {
  resolve : pyval → pyval → pyval → string → option Address;
  get_all_addresses : list pyval → list Address;
  get_for_node : pyval → option Address
}.

(** A service client: [properties] is what [get_all_addresses] is called
    with. *)
Record ServiceClient : Type := mkServiceClient {
  sc_name : pyval;
  sc_version : pyval;
  sc_properties : list pyval
}.

(** A protocol handle: which transport it is and what [is_connected()]
    answers.  As an object it is truthy. *)
Record Protocol : Type := mkProtocol {
  proto_id : nat;
  is_connected : bool
}.

Record Pinger : Type := mkPinger { pinger_id : nat }.

(** A locally hosted service; [is_for_me] is its method. *)
Record Host : Type := mkHost {
  host_name : pyval;
  host_version : pyval;
  is_for_me : pyval → pyval → bool
}.

Record t : Type := mkBus {
  _registry_client : RegistryClient;
  _client_protocols : gmap pyval Protocol;
  _pingers : gmap pyval Pinger;
  _node_clients : gmap pyval ServiceClient;
  _service_clients : list ServiceClient;
  tcp_host : option Host;
  http_host : option Host;
  _host_id : pyval;
  _registered : bool
}.

Definition set_client_protocols (f : gmap pyval Protocol → gmap pyval Protocol) (bus : t) : t :=
  mkBus (_registry_client bus) (f (_client_protocols bus)) (_pingers bus) (_node_clients bus)
    (_service_clients bus) (tcp_host bus) (http_host bus) (_host_id bus) (_registered bus).

Definition set_pingers (f : gmap pyval Pinger → gmap pyval Pinger) (bus : t) : t :=
  mkBus (_registry_client bus) (_client_protocols bus) (f (_pingers bus)) (_node_clients bus)
    (_service_clients bus) (tcp_host bus) (http_host bus) (_host_id bus) (_registered bus).

Definition set_node_clients (f : gmap pyval ServiceClient → gmap pyval ServiceClient) (bus : t) : t :=
  mkBus (_registry_client bus) (_client_protocols bus) (_pingers bus) (f (_node_clients bus))
    (_service_clients bus) (tcp_host bus) (http_host bus) (_host_id bus) (_registered bus).

(** [__init__(registry_client)]; [host_id] is the value of [unique_hex()]. *)
Definition init (registry_client : RegistryClient) (host_id : string) : t :=
  mkBus registry_client ∅ ∅ ∅ [] None None (VStr host_id) false.

(** A connection attempt scheduled on the loop, with the arguments bound
    into its done-callback [_service_client_connection_callback]. *)
Record ConnectionAttempt : Type := mkAttempt {
  ca_host : pyval;
  ca_port : pyval;
  ca_client : ServiceClient;
  cb_client : ServiceClient;
  cb_node_id : pyval;
  cb_service_type : pyval
}.

(** What a call leaves behind: log records, packets handed to a protocol,
    tasks and calls started. *)
Inductive effect : Type :=
  | LogInfo (about : pyval)
  | LogError (packet : Packet)
  | LogWarn (packet : Packet)
  | ProtocolSend (protocol : Protocol) (packet : Packet)
  | SendPong (protocol : Protocol) (node_id : pyval)
  | PongReceived (pinger : Pinger) (count : pyval)
  | Connect (attempt : ConnectionAttempt)
  | SpawnCall (method : string) (packet : Packet)
  | Call (method : string) (packet : Packet) (protocol : Protocol).

(** The names [getattr(self, name)] finds on a [TCPBus]. *)
Definition attributes : list string :=
  ["_registry_client"; "_client_protocols"; "_pingers"; "_node_clients";
   "_service_clients"; "hosts"; "_host_id"; "_ronin"; "_registered"; "_logger";
   "__init__"; "_create_service_clients"; "connect"; "register";
   "registration_complete"; "new_instance"; "send"; "_request_sender";
   "_connect_to_client"; "_service_client_connection_callback";
   "_create_json_service_name"; "_handle_ping"; "_handle_pong";
   "_get_node_id_for_packet"; "handle_ping_timeout"; "receive";
   "_request_receiver"; "handle_connected"].

Definition bus_getattr (name : string) : result string :=
  if bool_decide (name ∈ attributes) then Ok name else Raise AttributeError.

(** [_connect_to_client(host, node_id, port, service_type, service_client)].
    [service_client = None] stands for a call that passes four positional
    arguments only: Python raises [TypeError] when binding them. *)
Definition _connect_to_client (bus : t) (host node_id port service_type : pyval)
    (service_client : option ServiceClient) : result ConnectionAttempt :=
  match service_client with
  | None => Raise TypeError
  | Some sc =>
      let! bound := getitem (_node_clients bus) node_id in
      Ok (mkAttempt host port sc bound node_id service_type)
  end.

(** [_service_client_connection_callback(sc, node_id, service_type, future)];
    [future.result()] re-raises the exception of a failed attempt. *)
Definition _service_client_connection_callback (bus : t) (sc : ServiceClient)
    (node_id service_type : pyval) (future : result Protocol) : result t :=
  let! protocol := future in
  Ok (set_client_protocols <[node_id := protocol]> bus).

(** The inner loop of [_create_service_clients], over the addresses of one
    service client. *)
Fixpoint connect_addresses (bus : t) (sc : ServiceClient) (addresses : list Address)
    : t * list ConnectionAttempt * result unit :=
  match addresses with
  | [] => (bus, [], Ok tt)
  | (host, port, node_id, service_type) :: rest =>
      if py_eq service_type (VStr "tcp") then
        let bus1 := set_node_clients <[node_id := sc]> bus in
        match _connect_to_client bus1 host node_id port service_type (Some sc) with
        | Raise e => (bus1, [], Raise e)
        | Ok future =>
            let '(bus2, futures, r) := connect_addresses bus1 sc rest in
            (bus2, future :: futures, r)
        end
      else connect_addresses bus sc rest
  end.

(** The outer loop of [_create_service_clients]. *)
Fixpoint connect_clients (bus : t) (clients : list ServiceClient)
    : t * list ConnectionAttempt * result unit :=
  match clients with
  | [] => (bus, [], Ok tt)
  | sc :: rest =>
      let '(bus1, futures1, r1) :=
        connect_addresses bus sc (get_all_addresses (_registry_client bus) (sc_properties sc)) in
      match r1 with
      | Raise e => (bus1, futures1, Raise e)
      | Ok _ =>
          let '(bus2, futures2, r2) := connect_clients bus1 rest in
          (bus2, (futures1 ++ futures2)%list, r2)
      end
  end.

(** [_create_service_clients()]: the bus afterwards, the attempts scheduled
    (the futures given to [asyncio.gather]) and whether the call raised. *)
Definition _create_service_clients (bus : t) : t * list ConnectionAttempt * result unit :=
  connect_clients bus (_service_clients bus).

(** [registration_complete()]: the future returned by
    [_create_service_clients] is dropped. *)
Definition registration_complete (bus : t) : t * list ConnectionAttempt * result unit :=
  if _registered bus then (bus, [], Ok tt)
  else
    let '(bus1, futures, r) := _create_service_clients bus in
    match r with
    | Raise e => (bus1, futures, Raise e)
    | Ok _ =>
        (mkBus (_registry_client bus1) (_client_protocols bus1) (_pingers bus1)
           (_node_clients bus1) (_service_clients bus1) (tcp_host bus1) (http_host bus1)
           (_host_id bus1) true,
         futures, Ok tt)
    end.

(** The loop runs the done-callback of one finished attempt; an exception
    raised by a callback is reported to the loop's handler and goes no
    further. *)
Definition attempt_done (bus : t) (a : ConnectionAttempt) (outcome : result Protocol) : t :=
  match _service_client_connection_callback bus (cb_client a) (cb_node_id a)
          (cb_service_type a) outcome with
  | Ok bus' => bus'
  | Raise _ => bus
  end.

(** The attempts finish one after the other, in the order given. *)
Definition attempts_done (bus : t) (finished : list (ConnectionAttempt * result Protocol)) : t :=
  fold_left (λ b fin, attempt_done b fin.1 fin.2) finished bus.

(** [asyncio.gather] over the futures with [return_exceptions=False]: the
    results in order, or the first exception; no other future is
    cancelled. *)
Fixpoint gather {A} (outcomes : list (result A)) : result (list A) :=
  match outcomes with
  | [] => Ok []
  | Ok a :: rest => let! others := gather rest in Ok (a :: others)
  | Raise e :: _ => Raise e
  end.

(** The attempt [_create_service_clients] builds for one address of [sc]:
    the callback is bound to [_node_clients[node_id]], just set to [sc]. *)
Definition attempt_for (sc : ServiceClient) (address : Address) : ConnectionAttempt :=
  let '(host, port, node_id, service_type) := address in
  mkAttempt host port sc sc node_id service_type.

(** The TCP-capable replicas the registry lists for [sc], as attempts. *)
Definition tcp_attempts (registry : RegistryClient) (sc : ServiceClient)
    : list ConnectionAttempt :=
  attempt_for sc <$>
    filter (λ address : Address, py_eq address.2 (VStr "tcp") = true)
      (get_all_addresses registry (sc_properties sc)).

(** [send(packet)]: the packet as mutated, and the task started. *)
Definition send (bus : t) (packet : Packet) : Packet * result effect :=
  let packet := <["from" := _host_id bus]> packet in
  (packet,
   let! ty := getitem packet "type" in
   let! ty := as_str ty in
   let! func := bus_getattr ("_" ++ ty ++ "_sender") in
   Ok (SpawnCall func packet)).

(** [_get_node_id_for_packet(packet)]. *)
Definition _get_node_id_for_packet (bus : t) (packet : Packet) : result pyval :=
  let! service := getitem packet "name" in
  let! version := getitem packet "version" in
  let! entity := getitem packet "entity" in
  match resolve (_registry_client bus) service version entity "tcp" with
  | Some node => Ok (node.1.2)
  | None => Ok VNone
  end.

(** The body of [_request_sender], one attempt: the packet as mutated,
    what was logged and sent, and the value returned or exception raised. *)
Definition _request_sender (bus : t) (packet : Packet) : Packet * list effect * result bool :=
  match _get_node_id_for_packet bus packet with
  | Raise e => (packet, [], Raise e)
  | Ok node_id =>
      match truthy node_id, _client_protocols bus !! node_id with
      | true, Some client_protocol =>
          if is_connected client_protocol then
            let packet := <["to" := node_id]> packet in
            (packet, [ProtocolSend client_protocol packet], Ok true)
          else (packet, [LogError packet], Raise ClientDisconnected)
      | _, _ => (packet, [LogError packet], Raise ClientNotFoundError)
      end
  end.

(** [handle_ping_timeout(node_id)].  The call to [_connect_to_client]
    passes [host, _node_id, port, _type] and no service client. *)
Definition handle_ping_timeout (bus : t) (node_id : pyval) : t * list effect * result unit :=
  let bus := set_pingers (delete node_id) bus in
  let service_props := get_for_node (_registry_client bus) node_id in
  match service_props with
  | Some (host, port, _node_id, _type) =>
      match _connect_to_client bus host _node_id port _type None with
      | Ok attempt => (bus, [LogInfo node_id; LogInfo node_id; Connect attempt], Ok tt)
      | Raise e => (bus, [LogInfo node_id; LogInfo node_id], Raise e)
      end
  | None => (bus, [LogInfo node_id; LogInfo node_id], Ok tt)
  end.

(** [new_instance(service, version, host, port, node_id, type)];
    [next] on an exhausted generator raises [StopIteration]. *)
Definition new_instance (bus : t) (service version host port node_id type : pyval)
    : t * list effect * result unit :=
  match filter (λ sc, py_eq (sc_name sc) service && py_eq (sc_version sc) version = true)
          (_service_clients bus) with
  | [] => (bus, [], Raise StopIteration)
  | sc :: _ =>
      if py_eq type (VStr "tcp") then
        let bus := set_node_clients <[node_id := sc]> bus in
        match _connect_to_client bus host node_id port type (Some sc) with
        | Ok attempt => (bus, [Connect attempt], Ok tt)
        | Raise e => (bus, [], Raise e)
        end
      else (bus, [], Ok tt)
  end.

(** [_handle_ping(packet, protocol)]. *)
Definition _handle_ping (packet : Packet) (protocol : Protocol) : result (list effect) :=
  let! node_id := getitem packet "node_id" in
  Ok [SendPong protocol node_id].

(** [_handle_pong(node_id, count)]. *)
Definition _handle_pong (bus : t) (node_id count : pyval) : result (list effect) :=
  let! pinger := getitem (_pingers bus) node_id in
  Ok [PongReceived pinger count].

(** [receive(packet, protocol, transport)]. *)
Definition receive (bus : t) (packet : Packet) (protocol : Protocol) : result (list effect) :=
  let! ty := getitem packet "type" in
  if py_eq ty (VStr "ping") then _handle_ping packet protocol
  else if py_eq ty (VStr "pong") then
    let! node_id := getitem packet "node_id" in
    let! count := getitem packet "count" in
    _handle_pong bus node_id count
  else
    let! host :=
      match tcp_host bus with
      | Some h => Ok h
      | None => Raise AttributeError
      end in
    let! name := getitem packet "name" in
    let! version := getitem packet "version" in
    if is_for_me host name version then
      let! ty := as_str ty in
      let! func := bus_getattr ("_" ++ ty ++ "_receiver") in
      Ok [Call func packet protocol]
    else Ok [LogWarn packet].

End TCPBus.

(** ** The retry decorator *)

Module Retrial.

Section Retry.

Context {St R : Type}.
Variable should_retry_for_result : R → bool.
Variable should_retry_for_exception : exn → bool.
Variable multiplier : Z.
(** [attempt k st]: the k-th run (from 0) of the decorated function. *)
Variable attempt : nat → St → St * result R.

Definition should_retry (r : result R) : bool :=
  match r with
  | Ok v => should_retry_for_result v
  | Raise e => should_retry_for_exception e
  end.

(** Modelled from the spec: the [retry] decorator of the [retrial] package,
    which these sources import and do not contain.  The decorated step is
    run again whenever its result or exception is to be retried, up to
    [max_attempts] runs; the delay before a run is [multiplier] times the
    delay before the previous one; once every run allowed has failed a
    terminal exception is raised.  Returned: the final state, the delays
    slept before the second and later runs, the number of runs, and the
    outcome. *)
Fixpoint retry_from (max_attempts : nat) (k : nat) (wait : Z) (st : St)
    : St * list Z * nat * result R :=
  match max_attempts with
  | O => (st, [], O, Raise RetriesExceeded)
  | S more =>
      let '(st1, r) := attempt k st in
      if should_retry r then
        match more with
        | O => (st1, [], 1%nat, Raise RetriesExceeded)
        | S _ =>
            let '(st2, delays, n, r') := retry_from more (S k) (wait * multiplier) st1 in
            (st2, wait :: delays, S n, r')
        end
      else (st1, [], 1%nat, r)
  end.

End Retry.

End Retrial.

Module Dispatcher.
Import TCPBus.

(** The decorator's arguments at [_request_sender]:
    [should_retry_for_result=lambda x: not x],
    [should_retry_for_exception=lambda x: True], [max_attempts=5],
    [multiplier=2]. *)
Definition max_attempts : nat := 5.
Definition multiplier : Z := 2.

(** One run of the decorated body, on the bus as it is at that run. *)
Definition attempt (buses : nat → t) (k : nat) (st : Packet * list effect)
    : (Packet * list effect) * result bool :=
  let '(packet, log, r) := _request_sender (buses k) st.1 in
  ((packet, (st.2 ++ log)%list), r).

(** The decorated [_request_sender(packet)]; [base_delay] is the delay
    before the second run. *)
Definition request_sender (buses : nat → t) (base_delay : Z) (packet : Packet)
    : (Packet * list effect) * list Z * nat * result bool :=
  Retrial.retry_from negb (λ _, true) multiplier (attempt buses)
    max_attempts 0 base_delay (packet, []).

(** The node id [_get_node_id_for_packet] answers for an address. *)
Definition resolved_node_id (bus : t) (service version entity : pyval) : pyval :=
  match resolve (_registry_client bus) service version entity "tcp" with
  | Some node => node.1.2
  | None => VNone
  end.

(** Whether one run of the body on [bus] hands the packet to a protocol. *)
Definition attempt_succeeds (bus : t) (packet : Packet) : bool :=
  match (_request_sender bus packet).2 with
  | Ok true => true
  | _ => false
  end.

(** [send(packet)] followed by the task it starts; [_request_sender] is the
    only attribute named [_<type>_sender]. *)
Definition send_request (buses : nat → t) (host : t) (base_delay : Z) (packet : Packet)
    : result ((Packet * list effect) * list Z * nat * result bool) :=
  match send host packet with
  | (packet', Ok (SpawnCall "_request_sender" p)) => Ok (request_sender buses base_delay p)
  | (_, Ok _) => Raise AttributeError
  | (_, Raise e) => Raise e
  end.

End Dispatcher.

(** ** Sample buses *)

Module Samples.

(** Two replicas of one subscribing service, the second one the leader. *)
Definition nodeX_other : PubSubBus.Subscriber :=
  PubSubBus.mkSubscriber (VStr "serviceB") (VInt 1) (VStr "10.0.0.1") (VInt 4001)
    (VStr "nodeX") (VStr "OTHER").

Definition nodeY_leader : PubSubBus.Subscriber :=
  PubSubBus.mkSubscriber (VStr "serviceB") (VInt 1) (VStr "10.0.0.2") (VInt 4002)
    (VStr "nodeY") (VStr "LEADER").

(** A pub/sub bus with its handler created, whose registry answers every
    [get_subscribers] with [subscribers] and which hosts [clients]. *)
Definition pubsub_bus (subscribers : list PubSubBus.Subscriber)
    (clients : list PubSubBus.ServiceClient) : PubSubBus.t :=
  PubSubBus.mkBus (VStr "localhost") (VInt 6379)
    (Some (PubSubBus.mkPubSub (VStr "localhost") (VInt 6379)))
    (PubSubBus.mkRegistryClient (λ _ _ _, Ok subscribers))
    (Some clients).

Definition serviceA_client : PubSubBus.ServiceClient :=
  PubSubBus.mkServiceClient (VStr "serviceA") (VStr "1") ["onEvent"].

(** A request packet for (serviceA, 1, e1). *)
Definition request_packet : gmap string pyval :=
  <["type" := VStr "request"]> (<["name" := VStr "serviceA"]> (<["version" := VInt 1]>
    (<["entity" := VStr "e1"]> (<["endpoint" := VStr "get"]> ∅)))).

Definition nodeY_address : TCPBus.Address :=
  (VStr "10.0.0.2", VInt 4002, VStr "nodeY", VStr "tcp").

(** A registry that knows nodeY as the one replica of everything. *)
Definition registry_knows_nodeY : TCPBus.RegistryClient :=
  TCPBus.mkRegistryClient (λ _ _ _ _, Some nodeY_address) (λ _, [nodeY_address])
    (λ _, Some nodeY_address).

Definition nodeX_address : TCPBus.Address :=
  (VStr "10.0.0.1", VInt 4001, VStr "nodeX", VStr "tcp").

(** A registry that lists nodeX and nodeY, and an HTTP endpoint, for every
    service. *)
Definition registry_two_replicas : TCPBus.RegistryClient :=
  TCPBus.mkRegistryClient (λ _ _ _ _, Some nodeY_address)
    (λ _, [nodeX_address; (VStr "10.0.0.3", VInt 8080, VStr "nodeW", VStr "http");
           nodeY_address])
    (λ _, Some nodeY_address).

(** A registry that knows nothing. *)
Definition registry_empty : TCPBus.RegistryClient :=
  TCPBus.mkRegistryClient (λ _ _ _ _, None) (λ _, []) (λ _, None).

Definition serviceA_tcp_client : TCPBus.ServiceClient :=
  TCPBus.mkServiceClient (VStr "serviceA") (VInt 1) [VStr "serviceA"; VInt 1].

Definition live_protocol : TCPBus.Protocol := TCPBus.mkProtocol 7 true.

(** A bus with the given registry and connection table, hosting a service
    that takes every packet for itself. *)
Definition tcp_bus (registry : TCPBus.RegistryClient)
    (protocols : gmap pyval TCPBus.Protocol) : TCPBus.t :=
  TCPBus.mkBus registry protocols ∅ ∅ [serviceA_tcp_client]
    (Some (TCPBus.mkHost (VStr "serviceA") (VInt 1) (λ _ _, true))) None
    (VStr "host0") false.

End Samples.

(** ** Registering subscriptions *)

Module Subscriptions.
Import PubSubBus.

(** What the scan of [register_for_subscription] sees of one attribute
    [fn = getattr(client, each)]: whether it is callable, its [__name__]
    (absent on objects without one), the truth of its [is_subscribe] and
    [is_xsubscribe] marks, and its [strategy] attribute if it has one. *)
Record Attribute : Type := mkAttribute {
  attr_callable : bool;
  attr_fn_name : option string;
  attr_is_subscribe : bool;
  attr_is_xsubscribe : bool;
  attr_strategy : option pyval
}.

(** One entry of [xsubs_list4registry]. *)
Definition XSub : Type := (pyval * pyval * string * pyval)%type.

(** The three lists the scan fills: [subs_list], [xsubs_list4registry],
    [xsubs_list4redis]. *)
Definition Lists : Type := (list string * list XSub * list string)%type.

(** The calls made on the collaborators. *)
Inductive effect : Type :=
  | XSubscribe (host port node_id : pyval) (xsubs : list XSub)
  | Subscribe (topics : list string).

Definition getattr_or {A} (o : option A) : result A :=
  match o with
  | Some a => Ok a
  | None => Raise AttributeError
  end.

Section Scan.

(** [isinstance(client, TCPServiceClient)], and [getattr(client, each)] for
    the names [dir(client)] lists ([sc_attrs]). *)
Variable is_tcp_client : ServiceClient → bool.
Variable attribute : ServiceClient → string → Attribute.

(** The body of the loop over [dir(client)], for one attribute. *)
Definition scan_attribute (client : ServiceClient) (node_id : pyval) (fn : Attribute)
    (lists : Lists) : result Lists :=
  let '(subs_list, xsubs_list4registry, xsubs_list4redis) := lists in
  if attr_callable fn && attr_is_subscribe fn then
    let! fn_name := getattr_or (attr_fn_name fn) in
    let! service := as_str (sc_name client) in
    let! key := _get_pubsub_key service (sc_version client) fn_name VNone in
    Ok ((subs_list ++ [key])%list, xsubs_list4registry, xsubs_list4redis)
  else if attr_callable fn && attr_is_xsubscribe fn then
    let! fn_name := getattr_or (attr_fn_name fn) in
    let! strategy := getattr_or (attr_strategy fn) in
    let! service := as_str (sc_name client) in
    let! key := _get_pubsub_key service (sc_version client) fn_name node_id in
    Ok (subs_list,
        (xsubs_list4registry ++ [(sc_name client, sc_version client, fn_name, strategy)])%list,
        (xsubs_list4redis ++ [key])%list)
  else Ok lists.

Fixpoint scan_names (client : ServiceClient) (node_id : pyval) (names : list string)
    (lists : Lists) : result Lists :=
  match names with
  | [] => Ok lists
  | each :: rest =>
      let! lists' := scan_attribute client node_id (attribute client each) lists in
      scan_names client node_id rest lists'
  end.

Fixpoint scan_clients (clients : list ServiceClient) (node_id : pyval) (lists : Lists)
    : result Lists :=
  match clients with
  | [] => Ok lists
  | client :: rest =>
      if is_tcp_client client then
        let! lists' := scan_names client node_id (sc_attrs client) lists in
        scan_clients rest node_id lists'
      else scan_clients rest node_id lists
  end.

(** [register_for_subscription(host, port, node_id, clients)]: the bus
    afterwards, the calls made, and whether it raised. *)
Definition register_for_subscription (bus : t) (host port node_id : pyval)
    (clients : list ServiceClient) : t * list effect * result unit :=
  let bus :=
    mkBus (_host bus) (_port bus) (_pubsub_handler bus) (_registry_client bus)
      (Some clients) in
  match scan_clients clients node_id ([], [], []) with
  | Raise e => (bus, [], Raise e)
  | Ok (subs_list, xsubs_list4registry, xsubs_list4redis) =>
      let registered := XSubscribe host port node_id xsubs_list4registry in
      match _pubsub_handler bus with
      | None => (bus, [registered], Raise AttributeError)
      | Some _ =>
          (bus, [registered; Subscribe (subs_list ++ xsubs_list4redis)%list], Ok tt)
      end
  end.

End Scan.

End Subscriptions.

(** ** The HTTP bus *)

Module HTTPBus.

(** A value of the [params] dictionary: a plain value or a dictionary (as
    [params['params']] is). *)
Inductive param : Type :=
  | PVal (v : pyval)
  | PDict (d : gmap string pyval).

(** The call [aiohttp.request(method, url, params=query_params, **kwargs)]. *)
Record Request : Type := mkRequest {
  req_method : pyval;
  req_url : string;
  req_params : gmap string pyval;
  req_kwargs : gmap string param
}.

Definition http_keys : list string :=
  ["data"; "headers"; "cookies"; "auth"; "allow_redirects"; "compress"; "chunked"].

(** [{k: params[k] for k in http_keys if k in params}]. *)
Definition select_kwargs (params : gmap string param) : gmap string param :=
  filter (λ kv, kv.1 ∈ http_keys) params.

(** [query_params[key] = value]: item assignment needs a dictionary. *)
Definition setitem (query_params : param) (key : string) (value : pyval) : result param :=
  match query_params with
  | PDict d => Ok (PDict (<[key := value]> d))
  | PVal _ => Raise TypeError
  end.

Section Format.

(** [str] of a dictionary, as [str.format] would print it. *)
Variable str_dict : gmap string pyval → string.

Definition param_str (x : param) : string :=
  match x with
  | PVal v => py_str v
  | PDict d => str_dict d
  end.

(** [send_http_request(app, service, version, method, entity, params)]:
    the [params] dictionary as left behind, and the request made. *)
Definition send_http_request (registry : TCPBus.RegistryClient)
    (app service version method entity : pyval) (params : gmap string param)
    : gmap string param * result Request :=
  match TCPBus.resolve registry service version entity "http" with
  | None => (params, Raise TypeError)
  | Some (host, port, node_id, service_type) =>
      match params !! "path" with
      | None => (params, Raise KeyError)
      | Some path =>
          let params := delete "path" params in
          let url := ("http://" ++ py_str host ++ ":" ++ py_str port ++ param_str path)%string in
          let kwargs := select_kwargs params in
          let query_params := default (PDict ∅) (params !! "params") in
          let params := delete "params" params in
          (params,
           let! query_params :=
             if decide (app = VNone) then Ok query_params
             else setitem query_params "app" app in
           let! query_params := setitem query_params "version" version in
           let! query_params := setitem query_params "service" service in
           match query_params with
           | PDict d => Ok (mkRequest method url d kwargs)
           | PVal _ => Raise TypeError
           end)
      end
  end.

End Format.

End HTTPBus.

(** ** Sequences of bus events *)

Module Lifecycle.
Import TCPBus.

(** The events that change a running TCP bus. *)
Inductive event : Type :=
  | RegistrationComplete
  | NewInstance (service version host port node_id type : pyval)
  | ConnectionDone (attempt : ConnectionAttempt) (outcome : result Protocol)
  | PingTimeout (node_id : pyval).

(** The bus after one event; an exception raised by the handler leaves the
    changes made before it. *)
Definition after (bus : t) (ev : event) : t :=
  match ev with
  | RegistrationComplete => (registration_complete bus).1.1
  | NewInstance service version host port node_id type =>
      (new_instance bus service version host port node_id type).1.1
  | ConnectionDone attempt outcome => attempt_done bus attempt outcome
  | PingTimeout node_id => (handle_ping_timeout bus node_id).1.1
  end.

Definition run (bus : t) (events : list event) : t := fold_left after events bus.

End Lifecycle.

(** ** Views used to state properties *)

Module Views.
Import PubSubBus.

(** The dictionary key and the stored tuple [xpublish] takes from one
    subscriber. *)
Definition group_key (s : Subscriber) : GroupKey := (sub_name s, sub_version s).
Definition meta_of (s : Subscriber) : Meta :=
  (sub_host s, sub_port s, sub_node_id s, sub_strategy s).

(** A registry entry of [register_for_subscription] and the per-replica
    key subscribed for it. *)
Definition matches_key (node_id : pyval) (x : Subscriptions.XSub) (topic : string) : Prop :=
  ∃ service, x.1.1.1 = VStr service
             ∧ _get_pubsub_key service x.1.1.2 x.1.2 node_id = Ok topic.

(** Whether an effect of the TCP bus hands a packet to a protocol. *)
Definition is_send (e : TCPBus.effect) : bool :=
  match e with
  | TCPBus.ProtocolSend _ _ => true
  | _ => false
  end.

End Views.

(** ** More sample data *)

Module Samples2.

(** A client of serviceA version "1" (a string) with two methods. *)
Definition string_version_client : PubSubBus.ServiceClient :=
  PubSubBus.mkServiceClient (VStr "serviceA") (VStr "1") ["onEvent"; "onJob"].

(** The same client with the integer version 1. *)
Definition int_version_client : PubSubBus.ServiceClient :=
  PubSubBus.mkServiceClient (VStr "serviceA") (VInt 1) ["onEvent"; "onJob"].

(** [onEvent] is a broadcast subscription, [onJob] an exclusive one. *)
Definition sample_attribute (client : PubSubBus.ServiceClient) (name : string)
    : Subscriptions.Attribute :=
  if String.eqb name "onEvent" then
    Subscriptions.mkAttribute true (Some "onEvent") true false None
  else if String.eqb name "onJob" then
    Subscriptions.mkAttribute true (Some "onJob") false true (Some (VStr "LEADER"))
  else Subscriptions.mkAttribute false None false false None.

End Samples2.

Module Samples3.

(** An HTTP call's [params]: a path, query parameters that try to set
    [service], a request body and a key [aiohttp.request] does not take. *)
Definition http_params : gmap string HTTPBus.param :=
  <["path" := HTTPBus.PVal (VStr "/users")]>
    (<["params" := HTTPBus.PDict (<["service" := VStr "other"]> (<["page" := VInt 2]> ∅))]>
       (<["data" := HTTPBus.PVal (VStr "body")]>
          (<["timeout" := HTTPBus.PVal (VInt 5)]> ∅))).

End Samples3.

(* ================================================================== *)
(** * Properties *)

Example split_abc : split slash "serviceA/1/onEvent" = ["serviceA"; "1"; "onEvent"].
Proof. reflexivity. Qed.

Example str_int : py_str (VInt 12) = "12" ∧ py_str (VInt (-3)) = "-3" ∧ py_str (VInt 0) = "0".
Proof. repeat split; reflexivity. Qed.

(** ** Topic keys *)

Section Topics.
Import PubSubBus.

Lemma split_nonempty sep s : split sep s ≠ [].
Proof.
  destruct s as [|c s]; simpl; [done|].
  destruct (Ascii.eqb c sep); [done|]. by destruct (split sep s).
Qed.

(** A field without separator is split off whole. *)
Lemma split_lacks_app sep a rest :
  lacks sep a = true →
  split sep (a ++ String sep rest) = a :: split sep rest.
Proof.
  induction a as [|c a IH]; simpl; intros Hl.
  - by rewrite Ascii.eqb_refl.
  - apply andb_prop in Hl as [Hc Ha].
    apply negb_true_iff in Hc. rewrite Hc, (IH Ha). done.
Qed.

Lemma split_lacks sep a : lacks sep a = true → split sep a = [a].
Proof.
  induction a as [|c a IH]; simpl; intros Hl; [done|].
  apply andb_prop in Hl as [Hc Ha].
  apply negb_true_iff in Hc. rewrite Hc, (IH Ha). done.
Qed.

Lemma join_slash_cons p q rest :
  join "/" (p :: q :: rest) = (p ++ String slash (join "/" (q :: rest)))%string.
Proof. reflexivity. Qed.

(** Joining fields that hold no '/' and splitting again gives the fields. *)
Lemma split_join (parts : list string) :
  parts ≠ [] →
  Forall (λ p, lacks slash p = true) parts →
  split slash (join "/" parts) = parts.
Proof.
  induction parts as [|p [|q rest] IH]; intros Hne Hall; [done| |].
  - apply Forall_inv in Hall. by apply split_lacks.
  - rewrite join_slash_cons.
    rewrite split_lacks_app by (by apply Forall_inv in Hall).
    rewrite IH; [done|done|]. by apply Forall_inv_tail in Hall.
Qed.

(** C9. Building a topic key with [_get_pubsub_key] and splitting it as
    [subscription_handler] does recovers the parts: for service, [str(version)],
    endpoint and node id free of '/', the broadcast key parses back to
    (service, str(version), endpoint) and the exclusive key to
    (service, str(version), endpoint, node_id); the version comes back as
    its string form.  (An empty node id is falsy and yields the broadcast
    key.) *)
Theorem C9_topic_key_roundtrip (service : string) (version : pyval) (endpoint : string) :
  lacks slash service = true →
  lacks slash (py_str version) = true →
  lacks slash endpoint = true →
  bind (_get_pubsub_key service version endpoint VNone) parse_topic
    = Ok (service, py_str version, endpoint, None)
  ∧ ∀ node_id : string,
      lacks slash node_id = true →
      bind (_get_pubsub_key service version endpoint (VStr node_id)) parse_topic
        = Ok (service, py_str version, endpoint,
              if decide (node_id = "") then None else Some node_id).
Proof.
  intros Hs Hv He. split.
  - unfold _get_pubsub_key, parse_topic; simpl truthy; cbn [bind].
    by rewrite split_join by (by repeat constructor).
  - intros n Hn. unfold _get_pubsub_key. simpl truthy.
    destruct (decide (n = "")) as [->|Hne].
    + cbn [String.eqb negb bind]. unfold parse_topic.
      by rewrite split_join by (by repeat constructor).
    + assert (String.eqb n "" = false) as -> by by apply String.eqb_neq.
      cbn [negb as_str bind]. unfold parse_topic.
      by rewrite split_join by (by repeat constructor).
Qed.

Lemma C9_topic_key_roundtrip_witness :
  bind (_get_pubsub_key "serviceA" (VInt 1) "onEvent" VNone) parse_topic
    = Ok ("serviceA", "1", "onEvent", None)
  ∧ bind (_get_pubsub_key "serviceA" (VInt 1) "onEvent" (VStr "nodeY")) parse_topic
    = Ok ("serviceA", "1", "onEvent", Some "nodeY").
Proof.
  destruct (C9_topic_key_roundtrip "serviceA" (VInt 1) "onEvent"
              eq_refl eq_refl eq_refl) as [H3 H4].
  split; [exact H3 | exact (H4 "nodeY" eq_refl)].
Defined.

End Topics.

(** ** Publishing *)

Section Publishing.
Import PubSubBus.
Context {Payload Kwargs : Type}.
Variable json_dumps : Payload → string.
Variable json_loads : string → result Kwargs.

Lemma broadcast_key service version endpoint :
  _get_pubsub_key service version endpoint VNone
    = Ok (join "/" [service; py_str version; endpoint]).
Proof. reflexivity. Qed.

(** C8. Once the pub/sub handler exists, every [publish(service, version,
    endpoint, payload)] schedules, before and apart from the exclusive
    publish, a transport publish of the JSON-serialized payload on the topic
    [service/str(version)/endpoint]; whatever the exclusive-publish task
    then does (whatever the registry answers, whatever is drawn, even if it
    raises), that broadcast reaches the transport. *)
Theorem C8_publish_broadcasts (bus : t) (h : PubSub) (service : string) (version : pyval)
    (endpoint : string) (payload : Payload) :
  _pubsub_handler bus = Some h →
  let topic := join "/" [service; py_str version; endpoint] in
  publish json_dumps bus service version endpoint payload
    = Ok [TransportPublish topic (json_dumps payload) : task (Payload:=Payload) (Kwargs:=Kwargs);
          XPublish service version endpoint payload]
  ∧ ∀ (later : t) (draws : nat → nat),
      ∃ exclusive,
        run_tasks json_dumps later draws
          [TransportPublish topic (json_dumps payload) : task (Payload:=Payload) (Kwargs:=Kwargs);
           XPublish service version endpoint payload]
        = (topic, json_dumps payload) :: exclusive.
Proof.
  intros Hh topic. split.
  - unfold publish, handler_publish. rewrite broadcast_key, Hh. reflexivity.
  - intros later draws. eexists. unfold run_tasks. cbn [flat_map run_task app]. reflexivity.
Qed.

(** Nothing matches: the comprehension is empty. *)
Lemma no_matching_client (clients : list ServiceClient) (service version : string) :
  (∀ sc, sc ∈ clients → ¬ (sc_name sc = VStr service ∧ sc_version sc = VStr version)) →
  filter (λ sc, py_eq (sc_name sc) (VStr service) && py_eq (sc_version sc) (VStr version) = true)
    clients = [].
Proof.
  induction clients as [|sc clients IH]; intros Hno; [done|].
  rewrite filter_cons. destruct (decide _) as [Hm|_].
  - exfalso. apply (Hno sc); [left|].
    apply andb_prop in Hm as [H1 H2]. unfold py_eq in *.
    by split; eapply bool_decide_eq_true_1.
  - apply IH. intros sc' Hin. apply Hno. by right.
Qed.

Lemma parse_topic_raises endpoint e :
  parse_topic endpoint = Raise e → e = ValueError.
Proof.
  unfold parse_topic. destruct (3 <? _)%nat.
  - destruct (split slash endpoint) as [|a [|b [|c [|d [|? ?]]]]]; congruence.
  - destruct (split slash endpoint) as [|a [|b [|c [|? ?]]]]; congruence.
Qed.

(** C6 (amended). A message whose topic does not split into exactly three or
    four '/'-separated names makes [subscription_handler] raise
    [ValueError]; a message whose topic names a (service, version) that no
    local client has makes it raise [IndexError].  Either way no handler is
    started and nothing is logged: the exception goes to the caller. *)
Theorem C6_unmatched_topic_raises (bus : t) (clients : list ServiceClient)
    (endpoint payload : string) :
  _clients bus = Some clients →
  match parse_topic endpoint with
  | Raise _ =>
      subscription_handler (Payload:=Payload) json_loads bus endpoint payload = Raise ValueError
  | Ok (service, version, _, _) =>
      (∀ sc, sc ∈ clients → ¬ (sc_name sc = VStr service ∧ sc_version sc = VStr version)) →
      subscription_handler (Payload:=Payload) json_loads bus endpoint payload = Raise IndexError
  end.
Proof.
  intros Hc. unfold subscription_handler.
  destruct (parse_topic endpoint) as [[[[service version] ep] node]|e] eqn:Hp.
  - intros Hno. cbn [bind]. rewrite Hc. cbn [bind].
    by rewrite (no_matching_client _ _ _ Hno).
  - cbn [bind]. by rewrite (parse_topic_raises _ _ Hp).
Qed.

End Publishing.

Lemma C8_publish_broadcasts_witness :
  PubSubBus.publish (Kwargs:=unit) id (Samples.pubsub_bus [] []) "serviceA" (VInt 1) "onEvent" "{x:1}"
    = Ok [PubSubBus.TransportPublish "serviceA/1/onEvent" "{x:1}";
          PubSubBus.XPublish "serviceA" (VInt 1) "onEvent" "{x:1}"].
Proof.
  exact (proj1 (C8_publish_broadcasts (Kwargs:=unit) id (Samples.pubsub_bus [] [])
                  (PubSubBus.mkPubSub (VStr "localhost") (VInt 6379))
                  "serviceA" (VInt 1) "onEvent" "{x:1}" eq_refl)).
Defined.

Lemma C6_unmatched_topic_raises_witness :
  PubSubBus.subscription_handler (Payload:=unit) (Kwargs:=string) Ok
    (Samples.pubsub_bus [] [Samples.serviceA_client]) "serviceB/1/onEvent" "{}"
    = Raise IndexError.
Proof.
  apply (C6_unmatched_topic_raises (Payload:=unit) (Kwargs:=string) Ok
           (Samples.pubsub_bus [] [Samples.serviceA_client]) [Samples.serviceA_client]
           "serviceB/1/onEvent" "{}" eq_refl).
  intros sc Hin [Hn _]. apply list_elem_of_singleton in Hin. subst sc. discriminate Hn.
Defined.

(** C6, refuted as stated: a message for a service no local client stands
    for, and a message on a two-segment topic, both make the handler raise
    instead of dropping the message. *)
Lemma C6_handler_raises_counterexample :
  PubSubBus.subscription_handler (Payload:=unit) (Kwargs:=string) Ok
    (Samples.pubsub_bus [] [Samples.serviceA_client]) "serviceB/1/onEvent" "{}"
    = Raise IndexError
  ∧ PubSubBus.subscription_handler (Payload:=unit) (Kwargs:=string) Ok
      (Samples.pubsub_bus [] [Samples.serviceA_client]) "serviceA/1" "{}"
    = Raise ValueError.
Proof. split; reflexivity. Qed.

(** *** Exclusive publish: what the selection does *)

Lemma random_choice_member {A} (r : nat) (seq : list A) (a : A) :
  PubSubBus.random_choice r seq = Ok a → a ∈ seq.
Proof.
  unfold PubSubBus.random_choice.
  destruct (seq !! _) as [x|] eqn:Hx; [|done].
  intros [= ->]. by eapply list_elem_of_lookup_2.
Qed.

Lemma random_choice_nonempty {A} (r : nat) (seq : list A) :
  seq ≠ [] → ∃ a, PubSubBus.random_choice r seq = Ok a.
Proof.
  intros Hne. unfold PubSubBus.random_choice.
  destruct (lookup_lt_is_Some_2 seq (r mod length seq)%nat) as [a ->]; [|by eexists].
  apply Nat.mod_upper_bound. by destruct seq.
Qed.

(** A leader listed first is selected, and no draw is used. *)
Lemma select_node_id_leader_first draws k (first : PubSubBus.Meta) rest :
  PubSubBus.meta_strategy first = VStr "LEADER" →
  PubSubBus.select_node_id draws k (first :: rest) = Ok (PubSubBus.meta_node_id first, k).
Proof. intros H. unfold PubSubBus.select_node_id. by rewrite H. Qed.

(** Whatever is selected is the node id of a member of the group. *)
Lemma select_node_id_member draws k (value : list PubSubBus.Meta) node k' :
  PubSubBus.select_node_id draws k value = Ok (node, k') →
  ∃ m, m ∈ value ∧ PubSubBus.meta_node_id m = node.
Proof.
  unfold PubSubBus.select_node_id. destruct value as [|first rest]; [done|].
  destruct (py_eq _ _).
  - intros [= <- _]. exists first. split; [by left|done].
  - destruct (PubSubBus.random_choice _ _) as [m|] eqn:Hm; [|done].
    cbn [bind]. intros [= <- _]. exists m. split; [|done].
    by eapply random_choice_member.
Qed.

(** C1, the code at the failing input: with the subscribers listed as
    [nodeX (OTHER); nodeY (LEADER)] and a draw that picks index 0, the
    payload goes to nodeX's topic and not to the leader's; with the list
    reversed it goes to nodeY.  The selection looks at the first entry
    only. *)
Theorem C1_xpublish_leader_not_first :
  PubSubBus.xpublish (Kwargs:=unit) id
    (Samples.pubsub_bus [Samples.nodeX_other; Samples.nodeY_leader] [])
    (λ _, 0%nat) "serviceA" (VInt 1) "onEvent" "{x:1}"
    = ([PubSubBus.TransportPublish "serviceA/1/onEvent/nodeX" "{x:1}"], Ok tt)
  ∧ PubSubBus.xpublish (Kwargs:=unit) id
      (Samples.pubsub_bus [Samples.nodeY_leader; Samples.nodeX_other] [])
      (λ _, 0%nat) "serviceA" (VInt 1) "onEvent" "{x:1}"
    = ([PubSubBus.TransportPublish "serviceA/1/onEvent/nodeY" "{x:1}"], Ok tt).
Proof. split; reflexivity. Qed.

(** ** Sending requests *)

Section Requests.
Import TCPBus Dispatcher.

Lemma get_node_id_for_packet_eq bus (packet : Packet) service version entity :
  packet !! "name" = Some service →
  packet !! "version" = Some version →
  packet !! "entity" = Some entity →
  _get_node_id_for_packet bus packet = Ok (resolved_node_id bus service version entity).
Proof.
  intros Hn Hv He. unfold _get_node_id_for_packet, getitem, resolved_node_id.
  rewrite Hn, Hv, He. cbn [bind]. by destruct (resolve _ _ _ _ _).
Qed.

(** C4 (amended). One run of the request-send step on a packet that carries
    its address raises [ClientNotFoundError] exactly when the registry
    resolves no (truthy) node id or the resolved node id has no entry in
    the connection table, and raises [ClientDisconnected] exactly when the
    node id resolves, has an entry, and that protocol is not connected. *)
Theorem C4_attempt_errors (bus : t) (packet : Packet) (service version entity : pyval) :
  packet !! "name" = Some service →
  packet !! "version" = Some version →
  packet !! "entity" = Some entity →
  let node_id := resolved_node_id bus service version entity in
  let outcome := (_request_sender bus packet).2 in
  (outcome = Raise ClientNotFoundError
     ↔ truthy node_id = false ∨ _client_protocols bus !! node_id = None)
  ∧ (outcome = Raise ClientDisconnected
     ↔ truthy node_id = true
       ∧ ∃ protocol, _client_protocols bus !! node_id = Some protocol
                     ∧ is_connected protocol = false).
Proof.
  intros Hn Hv He node_id outcome. subst outcome. unfold _request_sender.
  rewrite (get_node_id_for_packet_eq bus packet _ _ _ Hn Hv He). fold node_id.
  destruct (truthy node_id) eqn:Ht;
    destruct (_client_protocols bus !! node_id) as [p|] eqn:Hp;
    try destruct (is_connected p) eqn:Hc; cbn [snd];
    (split; (split; [intros ?|intros Hx])); try discriminate; eauto;
    try (destruct Hx as [?|?]; congruence);
    try (destruct Hx as (? & q & Hq & ?); congruence).
Qed.

Lemma C4_attempt_errors_witness :
  (_request_sender (Samples.tcp_bus Samples.registry_knows_nodeY ∅) Samples.request_packet).2
    = Raise ClientNotFoundError.
Proof.
  apply (C4_attempt_errors (Samples.tcp_bus Samples.registry_knows_nodeY ∅)
           Samples.request_packet (VStr "serviceA") (VInt 1) (VStr "e1")
           eq_refl eq_refl eq_refl).
  right. reflexivity.
Defined.

(** C4, refuted as stated: the registry resolves the address to nodeY, no
    connection for nodeY is in the table, and the error raised is
    [ClientNotFoundError], not [ClientDisconnected]. *)
Lemma C4_resolved_without_entry_counterexample :
  resolved_node_id (Samples.tcp_bus Samples.registry_knows_nodeY ∅)
    (VStr "serviceA") (VInt 1) (VStr "e1") = VStr "nodeY"
  ∧ (_request_sender (Samples.tcp_bus Samples.registry_knows_nodeY ∅)
       Samples.request_packet).2 = Raise ClientNotFoundError
  ∧ (_request_sender (Samples.tcp_bus Samples.registry_knows_nodeY ∅)
       Samples.request_packet).2 ≠ Raise ClientDisconnected.
Proof. split; [reflexivity | split; [reflexivity | discriminate]]. Qed.

End Requests.

Section Dispatching.
Import TCPBus Dispatcher.

(** C7. When the request packet's address resolves (at the time the sender
    task runs) to a truthy node id whose protocol is in the connection table
    and connected, [send] followed by its task hands exactly one packet to
    that protocol, the packet given with [from] set to the bus's own host id
    and [to] set to the resolved node id, in a single run: the result is
    [True], no delay is slept and no second run takes place. *)
Theorem C7_send_request_connected (buses : nat → t) (host : t) (base_delay : Z)
    (packet : Packet) (service version entity : pyval) (protocol : Protocol) :
  packet !! "type" = Some (VStr "request") →
  packet !! "name" = Some service →
  packet !! "version" = Some version →
  packet !! "entity" = Some entity →
  let node_id := resolved_node_id (buses 0%nat) service version entity in
  truthy node_id = true →
  _client_protocols (buses 0%nat) !! node_id = Some protocol →
  is_connected protocol = true →
  let sent := <["to" := node_id]> (<["from" := _host_id host]> packet) in
  send_request buses host base_delay packet
    = Ok ((sent, [ProtocolSend protocol sent]), [], 1%nat, Ok true)
  ∧ sent !! "to" = Some node_id
  ∧ sent !! "from" = Some (_host_id host).
Proof.
  intros Hty Hn Hv He node_id Ht Hp Hc sent.
  split; [|split; subst sent; by simplify_map_eq].
  unfold send_request, send, getitem.
  rewrite lookup_insert_ne by done. rewrite Hty. cbn [bind as_str].
  change (bus_getattr ("_" ++ "request" ++ "_sender")) with (Ok (A:=string) "_request_sender").
  cbn [bind]. unfold request_sender, max_attempts. cbn [Retrial.retry_from].
  unfold attempt at 1. cbn [fst snd]. unfold _request_sender.
  rewrite (get_node_id_for_packet_eq (buses 0%nat) _ service version entity)
    by (by rewrite !lookup_insert_ne by done).
  fold node_id. rewrite Ht, Hp, Hc. reflexivity.
Qed.

Lemma C7_send_request_connected_witness :
  send_request
    (λ _, Samples.tcp_bus Samples.registry_knows_nodeY {[ VStr "nodeY" := Samples.live_protocol ]})
    (Samples.tcp_bus Samples.registry_empty ∅) 1 Samples.request_packet
  = Ok ((<["to" := VStr "nodeY"]> (<["from" := VStr "host0"]> Samples.request_packet),
         [ProtocolSend Samples.live_protocol
            (<["to" := VStr "nodeY"]> (<["from" := VStr "host0"]> Samples.request_packet))]),
        [], 1%nat, Ok true).
Proof.
  exact (proj1 (C7_send_request_connected
    (λ _, Samples.tcp_bus Samples.registry_knows_nodeY {[ VStr "nodeY" := Samples.live_protocol ]})
    (Samples.tcp_bus Samples.registry_empty ∅) 1 Samples.request_packet
    (VStr "serviceA") (VInt 1) (VStr "e1") Samples.live_protocol
    eq_refl eq_refl eq_refl eq_refl eq_refl eq_refl eq_refl)).
Defined.

End Dispatching.

(** ** Bounded retry of the request sender *)

Section Retrying.
Import TCPBus Dispatcher.

Lemma request_sender_failed bus (packet : Packet) :
  attempt_succeeds bus packet = false →
  (_request_sender bus packet).1.1 = packet
  ∧ Retrial.should_retry negb (λ _, true) (_request_sender bus packet).2 = true.
Proof.
  unfold attempt_succeeds, _request_sender.
  destruct (_get_node_id_for_packet bus packet) as [node_id|e]; [|done].
  destruct (truthy node_id), (_client_protocols bus !! node_id) as [p|]; try done.
  by destruct (is_connected p).
Qed.

Lemma request_sender_succeeded bus (packet : Packet) :
  attempt_succeeds bus packet = true →
  (_request_sender bus packet).2 = Ok true.
Proof.
  unfold attempt_succeeds.
  by destruct (_request_sender bus packet).2 as [[]|].
Qed.

Lemma backoff_delays (wait : Z) (m : nat) :
  wait :: map (λ i, wait * multiplier * 2 ^ Z.of_nat i) (seq 0 m)
  = map (λ i, wait * 2 ^ Z.of_nat i) (seq 0 (S m)).
Proof.
  cbn [seq map]. f_equal; [simpl; lia|].
  rewrite <- seq_shift, map_map. apply map_ext. intros i.
  rewrite Nat2Z.inj_succ, Z.pow_succ_r by lia. unfold multiplier. lia.
Qed.

(** The retry loop started at run [k] with [n] runs left. *)
Lemma retry_from_request_sender (buses : nat → t) (packet : Packet) (n : nat) :
  ∀ (k : nat) (wait : Z) (log : list effect),
  let '(_, delays, m, r) :=
    Retrial.retry_from negb (λ _, true) multiplier (attempt buses) n k wait (packet, log) in
  (m ≤ n)%nat
  ∧ delays = map (λ i, wait * 2 ^ Z.of_nat i) (seq 0 (m - 1))
  ∧ ((r = Raise RetriesExceeded ∧ m = n
      ∧ ∀ j, (j < n)%nat → attempt_succeeds (buses (k + j)%nat) packet = false)
     ∨ (r = Ok true ∧ (1 ≤ m)%nat
        ∧ attempt_succeeds (buses (k + (m - 1))%nat) packet = true
        ∧ ∀ j, (j < m - 1)%nat → attempt_succeeds (buses (k + j)%nat) packet = false)).
Proof.
  induction n as [|n IH]; intros k wait log.
  - cbn. split; [lia|]. split; [done|]. left. repeat split; intros; lia.
  - cbn [Retrial.retry_from]. unfold attempt at 1. cbn [fst snd].
    destruct (attempt_succeeds (buses k) packet) eqn:Hk.
    + pose proof (request_sender_succeeded _ _ Hk) as Hr.
      destruct (_request_sender (buses k) packet) as [[p1 l1] r1]. cbn [snd] in Hr. subst r1.
      cbn. split; [lia|]. split; [done|]. right.
      rewrite Nat.add_0_r. repeat split; [lia|done|intros; lia].
    + pose proof (request_sender_failed _ _ Hk) as [Hp Hr].
      destruct (_request_sender (buses k) packet) as [[p1 l1] r1]. cbn [fst snd] in Hp, Hr.
      subst p1. rewrite Hr.
      destruct n as [|n'].
      * split; [lia|]. split; [done|]. left. repeat split.
        intros j Hj. assert (j = 0%nat) as -> by lia. by rewrite Nat.add_0_r.
      * specialize (IH (S k) (wait * multiplier) (log ++ l1)%list).
        destruct (Retrial.retry_from _ _ _ _ (S n') (S k) _ _) as [[[st2 delays] m] r'].
        destruct IH as (Hle & Hd & Hcase).
        assert (1 ≤ m)%nat as Hm by (destruct Hcase as [(_ & -> & _)|(_ & ? & _)]; lia).
        split; [lia|]. split.
        { subst delays. replace (S m - 1)%nat with (S (m - 1)) by lia.
          apply backoff_delays. }
        destruct Hcase as [(-> & -> & Hall)|(-> & _ & Hok & Hbefore)].
        -- left. repeat split. intros [|j] Hj; [by rewrite Nat.add_0_r|].
           replace (k + S j)%nat with (S k + j)%nat by lia. apply Hall. lia.
        -- right. repeat split; [lia| |].
           ++ replace (k + (S m - 1))%nat with (S k + (m - 1))%nat by lia. done.
           ++ intros [|j] Hj; [by rewrite Nat.add_0_r|].
              replace (k + S j)%nat with (S k + j)%nat by lia. apply Hbefore. lia.
Qed.

(** C3. The decorated request sender runs the resolve-and-send step again
    whenever a run returns a falsy value or raises, at most 5 runs in all;
    the delay before each further run is twice the one before; it raises the
    terminal exception exactly when all 5 runs failed, and then after 5 runs;
    and as soon as a run succeeds it returns [True] with no further run. *)
Theorem C3_request_sender_bounded_retry (buses : nat → t) (base_delay : Z) (packet : Packet) :
  let '(_, delays, attempts, r) := request_sender buses base_delay packet in
  (attempts ≤ 5)%nat
  ∧ delays = map (λ i, base_delay * 2 ^ Z.of_nat i) (seq 0 (attempts - 1))
  ∧ (r = Raise RetriesExceeded
     ↔ ∀ k, (k < 5)%nat → attempt_succeeds (buses k) packet = false)
  ∧ (r = Raise RetriesExceeded → attempts = 5%nat)
  ∧ (∀ k, (k < 5)%nat →
       (∀ j, (j < k)%nat → attempt_succeeds (buses j) packet = false) →
       attempt_succeeds (buses k) packet = true →
       r = Ok true ∧ attempts = S k).
Proof.
  unfold request_sender.
  pose proof (retry_from_request_sender buses packet max_attempts 0%nat base_delay []) as H.
  destruct (Retrial.retry_from _ _ _ _ _ _ _ _) as [[[st delays] m] r].
  destruct H as (Hle & Hd & Hcase). change max_attempts with 5%nat in *.
  cbn [Nat.add] in Hcase.
  split; [done|]. split; [done|].
  destruct Hcase as [(-> & -> & Hall)|(-> & Hm & Hok & Hbefore)].
  - split; [done|]. split; [done|].
    intros k Hk _ Hs. rewrite Hall in Hs by done. discriminate.
  - split; [|split].
    + split; [discriminate|]. intros Hall. rewrite Hall in Hok by lia. discriminate.
    + discriminate.
    + intros k Hk Hfail Hs. split; [done|].
      destruct (Nat.lt_trichotomy k (m - 1)) as [Hlt|[Heq|Hgt]].
      * rewrite Hbefore in Hs by done. discriminate.
      * lia.
      * rewrite Hfail in Hok by done. discriminate.
Qed.

Lemma C3_request_sender_bounded_retry_witness :
  (Dispatcher.request_sender (λ _, Samples.tcp_bus Samples.registry_empty ∅) 1
     Samples.request_packet).2 = Raise RetriesExceeded.
Proof.
  pose proof (C3_request_sender_bounded_retry
                (λ _, Samples.tcp_bus Samples.registry_empty ∅) 1 Samples.request_packet) as H.
  destruct (request_sender _ _ _) as [[[st delays] attempts] r].
  destruct H as (_ & _ & Hiff & _). apply Hiff. intros k _. reflexivity.
Defined.

Example request_sender_never_resolved :
  let '(_, delays, attempts, r) :=
    request_sender (λ _, Samples.tcp_bus Samples.registry_empty ∅) 1 Samples.request_packet in
  delays = [1; 2; 4; 8] ∧ attempts = 5%nat ∧ r = Raise RetriesExceeded.
Proof. vm_compute. done. Qed.

Example request_sender_third_run :
  let buses (k : nat) :=
    if (k <? 2)%nat then Samples.tcp_bus Samples.registry_empty ∅
    else Samples.tcp_bus Samples.registry_knows_nodeY
           {[ VStr "nodeY" := Samples.live_protocol ]} in
  let '(_, delays, attempts, r) := request_sender buses 1 Samples.request_packet in
  delays = [1; 2] ∧ attempts = 3%nat ∧ r = Ok true.
Proof. vm_compute. done. Qed.

End Retrying.

(** ** Routing inbound packets *)

Section Routing.
Import TCPBus.

Lemma length_string_app (a b : string) :
  String.length (a ++ b) = (String.length a + String.length b)%nat.
Proof. induction a as [|c a IH]; simpl; [done|]. by rewrite IH. Qed.

Lemma substring_app_prefix (a b : string) :
  substring 0 (String.length a) (a ++ b) = a.
Proof.
  induction a as [|c a IH]; simpl.
  - by destruct b.
  - by rewrite IH.
Qed.

(** What stands before a known suffix is determined by the whole. *)
Lemma app_suffix_inv (ty suffix whole : string) :
  (ty ++ suffix)%string = whole →
  ty = substring 0 (String.length whole - String.length suffix) whole.
Proof.
  intros <-. rewrite length_string_app.
  replace (String.length ty + String.length suffix - String.length suffix)%nat
    with (String.length ty) by lia.
  by rewrite substring_app_prefix.
Qed.

Lemma receiver_name (ty : string) :
  ("_" ++ ty ++ "_receiver")%string = String "_" (ty ++ "_receiver").
Proof. reflexivity. Qed.

Ltac solve_suffix H :=
  try discriminate H;
  injection H as H;
  let E := fresh in
  pose proof (app_suffix_inv _ _ _ H) as E;
  vm_compute in E; subst; vm_compute in H; first [discriminate H | reflexivity].

(** The only attribute of the bus named [_<type>_receiver] is
    [_request_receiver]. *)
Lemma receiver_attribute (ty : string) :
  ("_" ++ ty ++ "_receiver")%string ∈ attributes ↔ ty = "request".
Proof.
  split.
  - rewrite receiver_name. unfold attributes. rewrite !elem_of_cons, elem_of_nil.
    intros H.
    repeat (destruct H as [H|H]; [solve_suffix H|]). done.
  - intros ->. vm_compute. repeat (first [left | right]).
Qed.

(** Likewise [_request_sender] is the only [_<type>_sender]. *)
Lemma sender_attribute (ty : string) :
  ("_" ++ ty ++ "_sender")%string ∈ attributes ↔ ty = "request".
Proof.
  split.
  - change ("_" ++ ty ++ "_sender")%string with (String "_" (ty ++ "_sender")).
    unfold attributes. rewrite !elem_of_cons, elem_of_nil.
    intros H.
    repeat (destruct H as [H|H]; [solve_suffix H|]). done.
  - intros ->. vm_compute. repeat (first [left | right]).
Qed.

Lemma bus_getattr_receiver (ty : string) :
  bus_getattr ("_" ++ ty ++ "_receiver")
  = if decide (ty = "request") then Ok "_request_receiver" else Raise AttributeError.
Proof.
  unfold bus_getattr. destruct (decide (ty = "request")) as [->|Hne].
  - reflexivity.
  - rewrite bool_decide_eq_false_2; [done|]. by rewrite receiver_attribute.
Qed.

(** C10. For an inbound packet whose type is a name other than 'ping' and
    'pong', on a bus with a hosted service: when the packet's (name,
    version) is not for the host, [receive] logs a warning and returns;
    when it is, [receive] looks up [_<type>_receiver], calls
    [_request_receiver] for type 'request', and raises [AttributeError] for
    every other type, logging nothing. *)
Theorem C10_receive_unknown_type (bus : t) (packet : Packet) (protocol : Protocol)
    (ty : string) (host : Host) (name version : pyval) :
  packet !! "type" = Some (VStr ty) →
  ty ≠ "ping" →
  ty ≠ "pong" →
  tcp_host bus = Some host →
  packet !! "name" = Some name →
  packet !! "version" = Some version →
  receive bus packet protocol
  = if is_for_me host name version then
      if decide (ty = "request") then Ok [Call "_request_receiver" packet protocol]
      else Raise AttributeError
    else Ok [LogWarn packet].
Proof.
  intros Hty Hping Hpong Hhost Hn Hv. unfold receive, getitem.
  rewrite Hty. cbn [bind]. unfold py_eq.
  rewrite !bool_decide_eq_false_2 by congruence.
  rewrite Hhost, Hn, Hv. cbn [bind].
  destruct (is_for_me host name version); [|done].
  cbn [as_str bind]. rewrite bus_getattr_receiver.
  by destruct (decide (ty = "request")).
Qed.

Lemma C10_receive_unknown_type_witness :
  receive (Samples.tcp_bus Samples.registry_empty ∅)
    (<["type" := VStr "event"]> Samples.request_packet) Samples.live_protocol
  = Raise AttributeError.
Proof.
  exact (C10_receive_unknown_type (Samples.tcp_bus Samples.registry_empty ∅)
           (<["type" := VStr "event"]> Samples.request_packet) Samples.live_protocol
           "event" (mkHost (VStr "serviceA") (VInt 1) (λ _ _, true))
           (VStr "serviceA") (VInt 1)
           eq_refl ltac:(discriminate) ltac:(discriminate) eq_refl eq_refl eq_refl).
Defined.

End Routing.

(** ** Connections *)

Section Connections.
Import TCPBus.

(** C2 (amended). [handle_ping_timeout(node_id)] removes the node's entry
    from the pinger table and leaves the connection table and the node
    clients as they are; when the registry no longer knows the replica the
    call returns normally and schedules no connection attempt. *)
Theorem C2_ping_timeout_drops_pinger (bus : t) (node_id : pyval) :
  let '(bus', effects, r) := handle_ping_timeout bus node_id in
  _pingers bus' = delete node_id (_pingers bus)
  ∧ _client_protocols bus' = _client_protocols bus
  ∧ _node_clients bus' = _node_clients bus
  ∧ (get_for_node (_registry_client bus) node_id = None →
     r = Ok tt ∧ ∀ attempt, Connect attempt ∉ effects).
Proof.
  unfold handle_ping_timeout. cbn [set_pingers _registry_client].
  destruct (get_for_node (_registry_client bus) node_id) as [[[[host port] nid] ty]|].
  - cbn. repeat split; done.
  - cbn. repeat split; try done.
    intros attempt Hin. rewrite !elem_of_cons, elem_of_nil in Hin.
    by destruct Hin as [?|[?|?]].
Qed.

Lemma C2_ping_timeout_drops_pinger_witness :
  (handle_ping_timeout
     (Samples.tcp_bus Samples.registry_empty {[ VStr "nodeY" := Samples.live_protocol ]})
     (VStr "nodeY")).2 = Ok tt.
Proof.
  pose proof (C2_ping_timeout_drops_pinger
    (Samples.tcp_bus Samples.registry_empty {[ VStr "nodeY" := Samples.live_protocol ]})
    (VStr "nodeY")) as H.
  destruct (handle_ping_timeout _ _) as [[bus' effects] r].
  destruct H as (_ & _ & _ & H). exact (proj1 (H eq_refl)).
Defined.

(** C2, refuted as stated: after [handle_ping_timeout] for nodeY the
    connection table still maps nodeY to its protocol. *)
Lemma C2_connection_entry_kept_counterexample :
  _client_protocols
    (handle_ping_timeout
       (Samples.tcp_bus Samples.registry_empty {[ VStr "nodeY" := Samples.live_protocol ]})
       (VStr "nodeY")).1.1
    !! VStr "nodeY" = Some Samples.live_protocol.
Proof. reflexivity. Qed.

(** When the registry still knows the replica, the call to
    [_connect_to_client] lacks its fifth argument: [TypeError], and no
    attempt is scheduled. *)
Lemma handle_ping_timeout_known_replica (bus : t) (node_id : pyval) (address : Address) :
  get_for_node (_registry_client bus) node_id = Some address →
  (handle_ping_timeout bus node_id).2 = Raise TypeError
  ∧ ∀ attempt, Connect attempt ∉ (handle_ping_timeout bus node_id).1.2.
Proof.
  intros Hk. unfold handle_ping_timeout. cbn [set_pingers _registry_client].
  rewrite Hk. destruct address as [[[host port] nid] ty]. cbn. split; [done|].
  intros attempt Hin. rewrite !elem_of_cons, elem_of_nil in Hin.
  by destruct Hin as [?|[?|?]].
Qed.

(** The sibling path [new_instance] passes the service client and does
    schedule the attempt. *)
Lemma new_instance_connects (bus : t) (sc : ServiceClient) (rest : list ServiceClient)
    (host port node_id : pyval) :
  _service_clients bus = sc :: rest →
  (new_instance bus (sc_name sc) (sc_version sc) host port node_id (VStr "tcp")).1.2
  = [Connect (mkAttempt host port sc sc node_id (VStr "tcp"))].
Proof.
  intros Hsc. unfold new_instance. rewrite Hsc, filter_cons.
  rewrite decide_True by (unfold py_eq; by rewrite !bool_decide_eq_true_2).
  change (py_eq (VStr "tcp") (VStr "tcp")) with true. cbv iota.
  unfold _connect_to_client, getitem. cbn [set_node_clients _node_clients].
  by rewrite lookup_insert_eq.
Qed.

End Connections.

(** ** Bootstrap *)

Section Bootstrap.
Import TCPBus.

Lemma connect_to_client_bound bus host node_id port service_type sc :
  _connect_to_client (set_node_clients <[node_id := sc]> bus) host node_id port
    service_type (Some sc)
  = Ok (mkAttempt host port sc sc node_id service_type).
Proof.
  unfold _connect_to_client, getitem. cbn [set_node_clients _node_clients].
  by rewrite lookup_insert_eq.
Qed.

(** The inner loop schedules one attempt per TCP address and touches
    nothing but [_node_clients]. *)
Lemma connect_addresses_spec (sc : ServiceClient) (addresses : list Address) :
  ∀ bus : t,
  (connect_addresses bus sc addresses).2 = Ok tt
  ∧ (connect_addresses bus sc addresses).1.2
    = (attempt_for sc <$> filter (λ a : Address, py_eq a.2 (VStr "tcp") = true) addresses)
  ∧ _registry_client (connect_addresses bus sc addresses).1.1 = _registry_client bus
  ∧ _client_protocols (connect_addresses bus sc addresses).1.1 = _client_protocols bus.
Proof.
  induction addresses as [|[[[host port] node_id] service_type] rest IH]; intros bus.
  - done.
  - cbn [connect_addresses]. rewrite filter_cons. cbn [snd].
    destruct (py_eq service_type (VStr "tcp")) eqn:Htcp.
    + rewrite connect_to_client_bound.
      specialize (IH (set_node_clients <[node_id := sc]> bus)).
      destruct (connect_addresses _ sc rest) as [[bus2 futures] r].
      cbn [fst snd] in *. destruct IH as (-> & -> & -> & ->).
      rewrite decide_True by done. done.
    + rewrite decide_False by congruence. apply IH.
Qed.

Lemma connect_clients_spec (clients : list ServiceClient) :
  ∀ bus : t,
  (connect_clients bus clients).2 = Ok tt
  ∧ (connect_clients bus clients).1.2
    = flat_map (tcp_attempts (_registry_client bus)) clients
  ∧ _registry_client (connect_clients bus clients).1.1 = _registry_client bus
  ∧ _client_protocols (connect_clients bus clients).1.1 = _client_protocols bus.
Proof.
  induction clients as [|sc rest IH]; intros bus; [done|].
  cbn [connect_clients flat_map].
  pose proof (connect_addresses_spec sc
                (get_all_addresses (_registry_client bus) (sc_properties sc)) bus) as H1.
  destruct (connect_addresses bus sc _) as [[bus1 futures1] r1].
  cbn [fst snd] in H1. destruct H1 as (-> & -> & Hreg & Hcp).
  specialize (IH bus1).
  destruct (connect_clients bus1 rest) as [[bus2 futures2] r2].
  cbn [fst snd] in *. destruct IH as (-> & -> & -> & ->).
  rewrite Hreg, Hcp. done.
Qed.

Lemma attempt_done_lookup bus a outcome node :
  _client_protocols (attempt_done bus a outcome) !! node
  = match outcome with
    | Ok protocol =>
        if decide (cb_node_id a = node) then Some protocol
        else _client_protocols bus !! node
    | Raise _ => _client_protocols bus !! node
    end.
Proof.
  unfold attempt_done, _service_client_connection_callback.
  destruct outcome as [protocol|e]; cbn [bind set_client_protocols _client_protocols]; [|done].
  by rewrite lookup_insert.
Qed.

Lemma attempts_done_cons bus a outcome finished :
  attempts_done bus ((a, outcome) :: finished)
  = attempts_done (attempt_done bus a outcome) finished.
Proof. reflexivity. Qed.

(** Attempts for other nodes leave a node's entry alone. *)
Lemma attempts_done_other (finished : list (ConnectionAttempt * result Protocol)) :
  ∀ (bus : t) (node : pyval),
  node ∉ ((λ fin, cb_node_id fin.1) <$> finished) →
  _client_protocols (attempts_done bus finished) !! node = _client_protocols bus !! node.
Proof.
  induction finished as [|[a0 o0] rest IH]; intros bus node Hnot; [done|].
  rewrite fmap_cons, not_elem_of_cons in Hnot. destruct Hnot as [Hne Hrest].
  rewrite attempts_done_cons, (IH _ _ Hrest), attempt_done_lookup. cbn [fst] in Hne.
  destruct o0; [|done]. by rewrite decide_False.
Qed.

(** With distinct node ids, a node's entry is decided by its own attempt. *)
Lemma attempts_done_own (finished : list (ConnectionAttempt * result Protocol)) :
  ∀ (bus : t) a outcome,
  NoDup ((λ fin, cb_node_id fin.1) <$> finished) →
  (a, outcome) ∈ finished →
  _client_protocols (attempts_done bus finished) !! cb_node_id a
  = match outcome with
    | Ok protocol => Some protocol
    | Raise _ => _client_protocols bus !! cb_node_id a
    end.
Proof.
  induction finished as [|[a0 o0] rest IH]; intros bus a outcome Hnd Hin.
  - by apply elem_of_nil in Hin.
  - rewrite fmap_cons, NoDup_cons in Hnd. destruct Hnd as [Hfresh Hnd]. cbn [fst] in Hfresh.
    rewrite attempts_done_cons.
    apply elem_of_cons in Hin as [Heq|Hin].
    + injection Heq as -> ->.
      rewrite (attempts_done_other _ _ _ Hfresh), attempt_done_lookup.
      destruct o0; [|done]. by rewrite decide_True.
    + rewrite (IH _ _ _ Hnd Hin). destruct outcome; [done|].
      rewrite attempt_done_lookup. destruct o0; [|done].
      rewrite decide_False; [done|]. intros Heq. apply Hfresh. rewrite Heq.
      by apply (list_elem_of_fmap_2 (λ fin, cb_node_id fin.1) _ (a, Raise e)).
Qed.

Lemma gather_raises {A} (outcomes : list (result A)) e :
  gather outcomes = Raise e → Raise e ∈ outcomes.
Proof.
  induction outcomes as [|[a|e'] rest IH]; cbn [gather]; intros H; [done| |].
  - right. apply IH. by destruct (gather rest).
  - injection H as ->. by left.
Qed.

(** C5. [_create_service_clients] schedules, in the one call and without
    raising, a connection attempt for every TCP-capable replica the registry
    lists for every service client.  However the attempts then finish - in
    any order, any of them failing - each replica's entry in the connection
    table is decided by its own attempt alone: a successful attempt records
    its protocol, a failed one leaves the entry as it was, and neither
    depends on the outcome of the others. *)
Theorem C5_bootstrap_attempts_independent (bus : t) :
  let started := _create_service_clients bus in
  started.2 = Ok tt
  ∧ started.1.2 = flat_map (tcp_attempts (_registry_client bus)) (_service_clients bus)
  ∧ ∀ finished : list (ConnectionAttempt * result Protocol),
      finished.*1 ≡ₚ started.1.2 →
      NoDup (cb_node_id <$> started.1.2) →
      ∀ a outcome,
        (a, outcome) ∈ finished →
        _client_protocols (attempts_done started.1.1 finished) !! cb_node_id a
        = match outcome with
          | Ok protocol => Some protocol
          | Raise _ => _client_protocols bus !! cb_node_id a
          end.
Proof.
  intros started. subst started. unfold _create_service_clients.
  destruct (connect_clients_spec (_service_clients bus) bus) as (Hr & Ha & _ & Hcp).
  split; [done|]. split; [done|].
  intros finished Hperm Hnd a outcome Hin.
  rewrite attempts_done_own with (outcome := outcome); [by rewrite Hcp| |done].
  rewrite <- Hperm, <- list_fmap_compose in Hnd. exact Hnd.
Qed.

End Bootstrap.

Lemma C5_bootstrap_attempts_independent_witness :
  TCPBus._client_protocols
    (TCPBus.attempts_done
       (TCPBus._create_service_clients (Samples.tcp_bus Samples.registry_two_replicas ∅)).1.1
       [(TCPBus.attempt_for Samples.serviceA_tcp_client Samples.nodeY_address,
         Ok Samples.live_protocol);
        (TCPBus.attempt_for Samples.serviceA_tcp_client Samples.nodeX_address,
         Raise OSError)])
    !! VStr "nodeY" = Some Samples.live_protocol.
Proof.
  refine (proj2 (proj2 (C5_bootstrap_attempts_independent
            (Samples.tcp_bus Samples.registry_two_replicas ∅)))
          [(TCPBus.attempt_for Samples.serviceA_tcp_client Samples.nodeY_address,
            Ok Samples.live_protocol);
           (TCPBus.attempt_for Samples.serviceA_tcp_client Samples.nodeX_address,
            Raise OSError)] _ _
          (TCPBus.attempt_for Samples.serviceA_tcp_client Samples.nodeY_address)
          (Ok Samples.live_protocol) _).
  - apply perm_swap.
  - vm_compute. repeat constructor; rewrite ?elem_of_cons, elem_of_nil; intuition discriminate.
  - left.
Defined.

(* ================================================================== *)
(** * Further properties *)

(** ** Grouping of exclusive subscribers *)

Section Grouping.
Import PubSubBus Views.

Lemma group_subscribers_snoc (subs : list Subscriber) (s : Subscriber) :
  group_subscribers (subs ++ [s])
  = strategies_append (group_key s) (meta_of s) (group_subscribers subs).
Proof. unfold group_subscribers. by rewrite fold_left_app. Qed.

Lemma strategies_append_keys key v (g : list (GroupKey * list Meta)) :
  (strategies_append key v g).*1
  = if decide (key ∈ g.*1) then g.*1 else (g.*1 ++ [key])%list.
Proof.
  induction g as [|[k vs] g IH]; cbn [strategies_append fmap list_fmap fst].
  - rewrite decide_False; [done|]. apply not_elem_of_nil.
  - destruct (decide (k = key)) as [->|Hne].
    + rewrite decide_True by left. done.
    + cbn [fmap list_fmap fst]. fold (fmap (M:=list) (@fst GroupKey (list Meta))).
      rewrite IH. destruct (decide (key ∈ g.*1)) as [Hin|Hnin].
      * rewrite decide_True by (by right). done.
      * rewrite decide_False; [done|]. rewrite elem_of_cons. intros [?|?]; congruence.
Qed.

Lemma strategies_append_elem key v (g : list (GroupKey * list Meta)) k' vs' :
  NoDup g.*1 →
  (k', vs') ∈ strategies_append key v g
  ↔ (k' ≠ key ∧ (k', vs') ∈ g)
    ∨ (k' = key
       ∧ ((∃ vs, (key, vs) ∈ g ∧ vs' = (vs ++ [v])%list)
          ∨ (¬ key ∈ g.*1 ∧ vs' = [v]))).
Proof.
  induction g as [|[k vs] g IH]; intros Hnd; cbn [strategies_append].
  - rewrite list_elem_of_singleton. split.
    + intros [= -> ->]. right. split; [done|]. right. split; [apply not_elem_of_nil|done].
    + intros [[_ Hin]|[-> [(vs & Hin & _)|[_ ->]]]]; [by apply elem_of_nil in Hin|
        by apply elem_of_nil in Hin|done].
  - rewrite fmap_cons, NoDup_cons in Hnd. destruct Hnd as [Hfresh Hnd]. cbn [fst] in Hfresh.
    specialize (IH Hnd).
    destruct (decide (k = key)) as [->|Hne].
    + rewrite !elem_of_cons. split.
      * intros [[= -> ->]|Hin].
        -- right. split; [done|]. left. exists vs. split; [by left|done].
        -- left. split; [|by right]. intros ->. apply Hfresh.
           by apply (list_elem_of_fmap_2 fst _ (key, vs')).
      * intros [[Hk [[= ? ?]|Hin]]|[-> [(vs0 & Hin & ->)|[Hnin _]]]].
        -- congruence.
        -- by right.
        -- left. apply elem_of_cons in Hin as [[= ->]|Hin]; [done|].
           exfalso. apply Hfresh. by apply (list_elem_of_fmap_2 fst _ (key, vs0)).
        -- exfalso. apply Hnin. rewrite fmap_cons. by left.
    + rewrite !elem_of_cons, IH. rewrite fmap_cons. cbn [fst]. split.
      * intros [[= -> ->]|[[Hk Hin]|[-> [(vs0 & Hin & ->)|[Hnin ->]]]]].
        -- left. split; [done|by left].
        -- left. split; [done|by right].
        -- right. split; [done|]. left. exists vs0. rewrite elem_of_cons. split; [by right|done].
        -- right. split; [done|]. right. rewrite elem_of_cons. split; [|done].
           intros [?|?]; congruence.
      * intros [[Hk [[= -> ->]|Hin]]|[-> [(vs0 & Hin & ->)|[Hnin ->]]]].
        -- by left.
        -- right. left. done.
        -- right. right. split; [done|]. left. exists vs0. split; [|done].
           apply elem_of_cons in Hin as [[= ? ?]|Hin]; [congruence|done].
        -- right. right. split; [done|]. right. split; [|done].
           rewrite elem_of_cons in Hnin. intros Hin'. apply Hnin. by right.
Qed.

(** The invariant of the grouping loop. *)
Lemma group_subscribers_inv (subs : list Subscriber) :
  NoDup (group_subscribers subs).*1
  ∧ ∀ key value,
      (key, value) ∈ group_subscribers subs
      ↔ value ≠ []
        ∧ value = meta_of <$> filter (λ s, group_key s = key) subs.
Proof.
  induction subs as [|s subs IH] using rev_ind.
  - split; [constructor|]. intros key value. split.
    + intros Hin. by apply elem_of_nil in Hin.
    + intros [Hne ->]. done.
  - destruct IH as [Hnd IH]. rewrite group_subscribers_snoc. split.
    + rewrite strategies_append_keys. destruct (decide _) as [Hin|Hnin]; [done|].
      apply NoDup_app. split; [done|]. split; [|apply NoDup_singleton].
      intros x Hx Hx'. apply list_elem_of_singleton in Hx'. by subst.
    + intros key value. rewrite strategies_append_elem by done.
      rewrite filter_app, fmap_app, filter_cons, filter_nil.
      destruct (decide (group_key s = key)) as [Hk|Hk].
      * subst key. cbn [fmap list_fmap]. split.
        -- intros [[Hne _]|[_ [(vs & Hin & ->)|[Hnin ->]]]]; [done| |].
           ++ apply IH in Hin as [_ <-]. split; [by destruct vs|done].
           ++ split; [done|].
              destruct (meta_of <$> filter (λ s0, group_key s0 = group_key s) subs)
                as [|m ms] eqn:Hf; [done|].
              exfalso. apply Hnin.
              apply (list_elem_of_fmap_2 fst _ (group_key s, m :: ms)).
              apply IH. by rewrite Hf.
        -- intros [Hne ->]. right. split; [done|].
           destruct (meta_of <$> filter (λ s0, group_key s0 = group_key s) subs)
             as [|m ms] eqn:Hf.
           ++ right. split; [|done]. intros Hin.
              apply list_elem_of_fmap in Hin as ([k vs] & Hkeq & Hin). cbn in Hkeq. subst k.
              apply IH in Hin as [Hvs Hvs']. rewrite Hf in Hvs'. done.
           ++ left. exists (m :: ms). split; [|done]. apply IH. by rewrite Hf.
      * cbn [fmap list_fmap]. rewrite app_nil_r. rewrite <- IH. split.
        -- intros [[_ Hin]|[-> _]]; [done|congruence].
        -- intros Hin. left. split; [congruence|done].
Qed.

(** X1. [xpublish] groups the subscribers without losing or duplicating
    any: the keys of the groups are pairwise distinct, no group is empty,
    and the group stored under a key is exactly the sublist, in list order,
    of the subscribers with that (name, version). *)
Theorem X1_group_subscribers_partition (subs : list Subscriber) :
  NoDup (group_subscribers subs).*1
  ∧ ∀ key value,
      (key, value) ∈ group_subscribers subs
      ↔ value ≠ []
        ∧ value = meta_of <$> filter (λ s, group_key s = key) subs.
Proof.
  destruct (group_subscribers_inv subs) as [Hnd Hel].
  split; [exact Hnd|]. intros key value. apply Hel.
Qed.

End Grouping.

(** ** Exclusive publish, one target per group *)

Section ExclusivePublish.
Import PubSubBus Views.
Context {Payload Kwargs : Type}.
Variable json_dumps : Payload → string.

(** The member a group's publish goes to: the first one when it is tagged
    LEADER, some member otherwise. *)
Lemma select_node_id_spec draws k (value : list Meta) :
  value ≠ [] →
  ∃ m k', select_node_id draws k value = Ok (meta_node_id m, k')
          ∧ m ∈ value
          ∧ (∀ first rest, value = first :: rest →
               meta_strategy first = VStr "LEADER" → m = first).
Proof.
  intros Hne. destruct value as [|first rest]; [done|]. unfold select_node_id.
  destruct (py_eq (meta_strategy first) (VStr "LEADER")) eqn:Hl.
  - exists first, k. split; [done|]. split; [by left|]. by intros ? ? [= <- _] _.
  - destruct (random_choice_nonempty (draws k) (first :: rest)) as [m Hm]; [done|].
    rewrite Hm. exists m, (S k). split; [done|].
    split; [by eapply random_choice_member|].
    intros f r [= <- _] Hf. unfold py_eq in Hl. by rewrite bool_decide_eq_true_2 in Hl.
Qed.

Lemma filter_none {A} (P : A → Prop) `{∀ x, Decision (P x)} (l : list A) :
  (∀ x, x ∈ l → ¬ P x) → filter P l = [].
Proof.
  induction l as [|a l IH]; intros Hno; [done|].
  rewrite filter_cons, decide_False by (apply Hno; by left).
  apply IH. intros x Hx. apply Hno. by right.
Qed.

Lemma Forall2_impl_elem {A B} (P Q : A → B → Prop) (l : list A) (k : list B) :
  Forall2 P l k → (∀ x y, x ∈ l → P x y → Q x y) → Forall2 Q l k.
Proof.
  induction 1 as [|x y l k Hxy Hlk IH]; intros Himp; constructor.
  - apply Himp; [by left|done].
  - apply IH. intros x' y' Hin. apply Himp. by right.
Qed.

Lemma xpublish_loop_spec (bus : t) (h : PubSub) service version endpoint
    (payload : Payload) draws (groups : list (GroupKey * list Meta)) :
  _pubsub_handler bus = Some h →
  Forall (λ g, g.2 ≠ [] ∧ ∀ m, m ∈ g.2 → ∃ n, meta_node_id m = VStr n) groups →
  ∀ k, ∃ tasks,
    xpublish_loop (Kwargs:=Kwargs) json_dumps bus service version endpoint payload draws k groups
      = (tasks, Ok tt)
    ∧ Forall2
        (λ g tk, ∃ m topic,
           m ∈ g.2
           ∧ (∀ first rest, g.2 = first :: rest →
                meta_strategy first = VStr "LEADER" → m = first)
           ∧ _get_pubsub_key service version endpoint (meta_node_id m) = Ok topic
           ∧ tk = TransportPublish topic (json_dumps payload))
        groups tasks.
Proof.
  intros Hh Hall. induction Hall as [|[key value] groups [Hne Hstr] Hall IH]; intros k.
  - exists []. split; [done|constructor].
  - cbn [snd] in Hne, Hstr. cbn [xpublish_loop].
    destruct (select_node_id_spec draws k value Hne) as (m & k' & -> & Hin & Hlead).
    cbn [bind]. destruct (Hstr m Hin) as [n Hn].
    assert (∃ topic, _get_pubsub_key service version endpoint (meta_node_id m) = Ok topic)
      as [topic Htopic].
    { rewrite Hn. unfold _get_pubsub_key. destruct (truthy (VStr n)); by eexists. }
    rewrite Htopic. cbn [bind]. unfold handler_publish. rewrite Hh. cbn [bind].
    destruct (IH k') as (tasks & -> & Hf2).
    eexists. split; [done|]. constructor; [|done].
    exists m, topic. done.
Qed.

(** X2. With the handler created and string node ids, [xpublish] raises
    nothing and schedules exactly one transport publish per distinct
    (name, version) among the subscribers, in group order, each on the
    per-replica key of one subscriber of that group and with the serialized
    payload. *)
Theorem X2_xpublish_one_per_group (bus : t) (h : PubSub) (draws : nat → nat)
    (service : string) (version : pyval) (endpoint : string) (payload : Payload)
    (subs : list Subscriber) :
  _pubsub_handler bus = Some h →
  get_subscribers (_registry_client bus) service version endpoint = Ok subs →
  (∀ s, s ∈ subs → ∃ n, sub_node_id s = VStr n) →
  ∃ tasks,
    xpublish (Kwargs:=Kwargs) json_dumps bus draws service version endpoint payload
      = (tasks, Ok tt)
    ∧ length tasks = length (group_subscribers subs)
    ∧ Forall2
        (λ g tk, ∃ s topic,
           s ∈ subs ∧ group_key s = g.1
           ∧ _get_pubsub_key service version endpoint (sub_node_id s) = Ok topic
           ∧ tk = TransportPublish topic (json_dumps payload))
        (group_subscribers subs) tasks.
Proof.
  intros Hh Hsubs Hstr. unfold xpublish. rewrite Hsubs.
  destruct (group_subscribers_inv subs) as [_ Hel].
  destruct (xpublish_loop_spec bus h service version endpoint payload draws
              (group_subscribers subs) Hh) with (k := 0%nat) as (tasks & Heq & Hf2).
  { apply Forall_forall. intros [key value] Hin. apply Hel in Hin as [Hne ->].
    split; [done|]. cbn [snd]. intros m Hm.
    apply list_elem_of_fmap in Hm as (s & -> & Hs). apply list_elem_of_filter in Hs as [_ Hs].
    apply (Hstr s Hs). }
  exists tasks. split; [done|]. split; [symmetry; by eapply Forall2_length|].
  eapply Forall2_impl_elem; [exact Hf2|].
  intros [key value] tk Hin (m & topic & Hm & _ & Hkey & ->). cbn [snd fst] in *.
  apply Hel in Hin as [_ ->].
  apply list_elem_of_fmap in Hm as (s & -> & Hs). apply list_elem_of_filter in Hs as [Hk Hs].
  exists s, topic. done.
Qed.

(** X3. When the first-listed subscriber of its (name, version) is tagged
    LEADER, [xpublish] publishes on that subscriber's key, whatever the
    random draws are. *)
Theorem X3_xpublish_first_leader (bus : t) (h : PubSub) (draws : nat → nat)
    (service : string) (version : pyval) (endpoint : string) (payload : Payload)
    (before after : list Subscriber) (leader : Subscriber) :
  _pubsub_handler bus = Some h →
  get_subscribers (_registry_client bus) service version endpoint
    = Ok (before ++ leader :: after)%list →
  (∀ s, s ∈ (before ++ leader :: after)%list → ∃ n, sub_node_id s = VStr n) →
  (∀ s, s ∈ before → group_key s ≠ group_key leader) →
  sub_strategy leader = VStr "LEADER" →
  ∃ topic,
    _get_pubsub_key service version endpoint (sub_node_id leader) = Ok topic
    ∧ TransportPublish topic (json_dumps payload)
      ∈ (xpublish (Kwargs:=Kwargs) json_dumps bus draws service version endpoint payload).1.
Proof.
  intros Hh Hsubs Hstr Hbefore Hlead. unfold xpublish. rewrite Hsubs.
  set (subs := (before ++ leader :: after)%list) in *.
  destruct (group_subscribers_inv subs) as [_ Hel].
  destruct (xpublish_loop_spec bus h service version endpoint payload draws
              (group_subscribers subs) Hh) with (k := 0%nat) as (tasks & -> & Hf2).
  { apply Forall_forall. intros [key value] Hin. apply Hel in Hin as [Hne ->].
    split; [done|]. cbn [snd]. intros m Hm.
    apply list_elem_of_fmap in Hm as (s & -> & Hs). apply list_elem_of_filter in Hs as [_ Hs].
    apply (Hstr s Hs). }
  cbn [fst].
  set (value := meta_of <$> filter (λ s, group_key s = group_key leader) subs).
  assert (∃ rest, value = meta_of leader :: rest) as [rest Hvalue].
  { subst value subs. rewrite filter_app, filter_cons, decide_True by done.
    rewrite (filter_none _ before) by done.
    by eexists. }
  assert ((group_key leader, value) ∈ group_subscribers subs) as Hin.
  { apply Hel. by rewrite Hvalue. }
  apply list_elem_of_lookup_1 in Hin as [i Hi].
  destruct (Forall2_lookup_l _ _ _ _ _ Hf2 Hi) as (tk & Htk & m & topic & Hm & Hfirst & Hkey & ->).
  cbn [snd] in Hfirst. rewrite (Hfirst _ _ Hvalue) in Hkey by done.
  exists topic. split; [done|]. by eapply list_elem_of_lookup_2.
Qed.

Lemma select_node_id_singleton draws k (m : Meta) :
  ∃ k', select_node_id draws k [m] = Ok (meta_node_id m, k').
Proof.
  unfold select_node_id. destruct (py_eq _ _); [by eexists|].
  unfold random_choice. cbn [length]. rewrite Nat.mod_1_r. by eexists.
Qed.

(** X4. A lone exclusive subscriber whose node id is falsy (None or the
    empty string) is published to on the broadcast key
    [service/str(version)/endpoint], not on a per-replica key. *)
Theorem X4_xpublish_falsy_node_id (bus : t) (h : PubSub) (draws : nat → nat)
    (service : string) (version : pyval) (endpoint : string) (payload : Payload)
    (s : Subscriber) :
  _pubsub_handler bus = Some h →
  get_subscribers (_registry_client bus) service version endpoint = Ok [s] →
  truthy (sub_node_id s) = false →
  xpublish (Kwargs:=Kwargs) json_dumps bus draws service version endpoint payload
  = ([TransportPublish (join "/" [service; py_str version; endpoint]) (json_dumps payload)],
     Ok tt).
Proof.
  intros Hh Hsubs Hfalsy. unfold xpublish. rewrite Hsubs.
  cbn [group_subscribers fold_left strategies_append xpublish_loop].
  destruct (select_node_id_singleton draws 0
              (sub_host s, sub_port s, sub_node_id s, sub_strategy s)) as [k' ->].
  cbn [bind]. unfold meta_node_id. cbn [fst snd].
  unfold _get_pubsub_key. rewrite Hfalsy. cbn [bind].
  unfold handler_publish. rewrite Hh. done.
Qed.

Lemma published_length (topics_of : list (GroupKey * list Meta))
    (tasks : list (task (Payload:=Payload) (Kwargs:=Kwargs))) (data : string)
    (P : GroupKey * list Meta → string → Prop) :
  Forall2 (λ g tk, ∃ topic, P g topic ∧ tk = TransportPublish topic data) topics_of tasks →
  length (flat_map published tasks) = length topics_of
  ∧ Forall (λ td : string * string, td.2 = data) (flat_map published tasks).
Proof.
  induction 1 as [|g tk gs tks (topic & _ & ->) _ [IHl IHf]]; [done|].
  cbn [flat_map published app length]. split; [by rewrite IHl|]. by constructor.
Qed.

(** X5. What one [publish] puts on the transport: with the handler created
    and string node ids, running the two tasks it schedules publishes the
    serialized payload first on the broadcast key and then once per
    distinct (name, version) among the exclusive subscribers - one more
    publish than there are groups, all with the same data. *)
Theorem X5_publish_fan_out (bus : t) (h : PubSub) (draws : nat → nat)
    (service : string) (version : pyval) (endpoint : string) (payload : Payload)
    (subs : list Subscriber) :
  _pubsub_handler bus = Some h →
  get_subscribers (_registry_client bus) service version endpoint = Ok subs →
  (∀ s, s ∈ subs → ∃ n, sub_node_id s = VStr n) →
  ∃ tasks exclusive,
    publish (Kwargs:=Kwargs) json_dumps bus service version endpoint payload = Ok tasks
    ∧ run_tasks json_dumps bus draws tasks
      = (join "/" [service; py_str version; endpoint], json_dumps payload) :: exclusive
    ∧ length exclusive = length (group_subscribers subs)
    ∧ Forall (λ td : string * string, td.2 = json_dumps payload) exclusive.
Proof.
  intros Hh Hsubs Hstr.
  destruct (group_subscribers_inv subs) as [_ Hel].
  destruct (xpublish_loop_spec bus h service version endpoint payload draws
              (group_subscribers subs) Hh) with (k := 0%nat) as (xtasks & Hloop & Hf2).
  { apply Forall_forall. intros [key value] Hin. apply Hel in Hin as [Hne ->].
    split; [done|]. cbn [snd]. intros m Hm.
    apply list_elem_of_fmap in Hm as (s & -> & Hs). apply list_elem_of_filter in Hs as [_ Hs].
    apply (Hstr s Hs). }
  destruct (published_length (group_subscribers subs) xtasks (json_dumps payload)
              (λ g topic, True)) as [Hlen Hdata].
  { eapply Forall2_impl; [exact Hf2|]. intros g tk (m & topic & _ & _ & _ & ->). by exists topic. }
  exists [TransportPublish (join "/" [service; py_str version; endpoint]) (json_dumps payload);
          XPublish service version endpoint payload], (flat_map published xtasks).
  split; [|split; [|done]].
  - unfold publish, handler_publish. by rewrite Hh.
  - unfold run_tasks. cbn [flat_map run_task app]. unfold xpublish.
    rewrite Hsubs, Hloop. cbn [fst]. by rewrite app_nil_r.
Qed.

End ExclusivePublish.

Lemma X2_xpublish_one_per_group_witness :
  ∃ tasks,
    PubSubBus.xpublish (Kwargs:=unit) id
      (Samples.pubsub_bus [Samples.nodeX_other; Samples.nodeY_leader] [])
      (λ _, 1%nat) "serviceA" (VInt 1) "onEvent" "{x:1}" = (tasks, Ok tt)
    ∧ length tasks = 1%nat.
Proof.
  destruct (X2_xpublish_one_per_group (Kwargs:=unit) id
              (Samples.pubsub_bus [Samples.nodeX_other; Samples.nodeY_leader] [])
              (PubSubBus.mkPubSub (VStr "localhost") (VInt 6379)) (λ _, 1%nat)
              "serviceA" (VInt 1) "onEvent" "{x:1}"
              [Samples.nodeX_other; Samples.nodeY_leader] eq_refl eq_refl)
    as (tasks & Hrun & Hlen & _).
  - intros s Hs. apply elem_of_cons in Hs as [->|Hs]; [by eexists|].
    apply list_elem_of_singleton in Hs as ->. by eexists.
  - exists tasks. split; [exact Hrun | exact Hlen].
Defined.

Lemma X5_publish_fan_out_witness :
  ∃ tasks exclusive,
    PubSubBus.publish (Kwargs:=unit) id
      (Samples.pubsub_bus [Samples.nodeX_other; Samples.nodeY_leader] [])
      "serviceA" (VInt 1) "onEvent" "{x:1}" = Ok tasks
    ∧ PubSubBus.run_tasks id
        (Samples.pubsub_bus [Samples.nodeX_other; Samples.nodeY_leader] []) (λ _, 1%nat) tasks
      = ("serviceA/1/onEvent", "{x:1}") :: exclusive
    ∧ length exclusive = 1%nat.
Proof.
  destruct (X5_publish_fan_out (Kwargs:=unit) id
              (Samples.pubsub_bus [Samples.nodeX_other; Samples.nodeY_leader] [])
              (PubSubBus.mkPubSub (VStr "localhost") (VInt 6379)) (λ _, 1%nat)
              "serviceA" (VInt 1) "onEvent" "{x:1}"
              [Samples.nodeX_other; Samples.nodeY_leader] eq_refl eq_refl)
    as (tasks & exclusive & Hpub & Hrun & Hlen & _).
  - intros s Hs. apply elem_of_cons in Hs as [->|Hs]; [by eexists|].
    apply list_elem_of_singleton in Hs as ->. by eexists.
  - exists tasks, exclusive. split; [exact Hpub|]. split; [exact Hrun | exact Hlen].
Defined.

Lemma X3_xpublish_first_leader_witness :
  PubSubBus.TransportPublish "serviceA/1/onEvent/nodeY" "{x:1}"
  ∈ (PubSubBus.xpublish (Kwargs:=unit) id
       (Samples.pubsub_bus [Samples.nodeY_leader; Samples.nodeX_other] [])
       (λ _, 1%nat) "serviceA" (VInt 1) "onEvent" "{x:1}").1.
Proof.
  destruct (X3_xpublish_first_leader (Kwargs:=unit) id
              (Samples.pubsub_bus [Samples.nodeY_leader; Samples.nodeX_other] [])
              (PubSubBus.mkPubSub (VStr "localhost") (VInt 6379)) (λ _, 1%nat)
              "serviceA" (VInt 1) "onEvent" "{x:1}"
              [] [Samples.nodeX_other] Samples.nodeY_leader eq_refl eq_refl)
    as (topic & Htopic & Hin).
  - intros s Hs. apply elem_of_cons in Hs as [->|Hs]; [by eexists|].
    apply list_elem_of_singleton in Hs as ->. by eexists.
  - intros s Hs. by apply elem_of_nil in Hs.
  - reflexivity.
  - injection Htopic as <-. exact Hin.
Defined.

Lemma X4_xpublish_falsy_node_id_witness :
  PubSubBus.xpublish (Kwargs:=unit) id
    (Samples.pubsub_bus
       [PubSubBus.mkSubscriber (VStr "serviceB") (VInt 1) (VStr "10.0.0.1") (VInt 4001)
          (VStr "") (VStr "OTHER")] [])
    (λ _, 0%nat) "serviceA" (VInt 1) "onEvent" "{x:1}"
  = ([PubSubBus.TransportPublish "serviceA/1/onEvent" "{x:1}"], Ok tt).
Proof.
  exact (X4_xpublish_falsy_node_id (Kwargs:=unit) id
           (Samples.pubsub_bus
              [PubSubBus.mkSubscriber (VStr "serviceB") (VInt 1) (VStr "10.0.0.1") (VInt 4001)
                 (VStr "") (VStr "OTHER")] [])
           (PubSubBus.mkPubSub (VStr "localhost") (VInt 6379)) (λ _, 0%nat)
           "serviceA" (VInt 1) "onEvent" "{x:1}" _ eq_refl eq_refl eq_refl).
Defined.

(** ** Topics and the subscription handler *)

Section Handling.
Import PubSubBus.
Context {Payload Kwargs : Type}.
Variable json_dumps : Payload → string.
Variable json_loads : string → result Kwargs.

(** [publish] on a bus whose handler was never created raises
    [AttributeError] and schedules nothing; once [create_pubsub_handler]
    has run, [publish] always returns, having scheduled the broadcast
    publish and the exclusive publish. *)
Lemma publish_needs_handler (pubsub_host pubsub_port : pyval)
    (registry_client : RegistryClient) (service : string) (version : pyval)
    (endpoint : string) (payload : Payload) :
  publish (Kwargs:=Kwargs) json_dumps (init pubsub_host pubsub_port registry_client)
    service version endpoint payload = Raise AttributeError
  ∧ ∀ bus : t,
      publish (Kwargs:=Kwargs) json_dumps (create_pubsub_handler bus)
        service version endpoint payload
      = Ok [TransportPublish (join "/" [service; py_str version; endpoint])
              (json_dumps payload);
            XPublish service version endpoint payload].
Proof. split; [reflexivity|]. intros bus. reflexivity. Qed.

(** X6. Topic keys determine their parts: among names free of '/', two
    broadcast keys are equal only for equal service, equal [str(version)]
    and equal endpoint, and a broadcast key never equals an exclusive
    (per-replica) key. *)
Theorem X6_pubsub_key_injective (s1 s2 : string) (v1 v2 : pyval) (e1 e2 : string) :
  lacks slash s1 = true → lacks slash (py_str v1) = true → lacks slash e1 = true →
  lacks slash s2 = true → lacks slash (py_str v2) = true → lacks slash e2 = true →
  (_get_pubsub_key s1 v1 e1 VNone = _get_pubsub_key s2 v2 e2 VNone →
   s1 = s2 ∧ py_str v1 = py_str v2 ∧ e1 = e2)
  ∧ ∀ node_id : string,
      node_id ≠ "" → lacks slash node_id = true →
      _get_pubsub_key s1 v1 e1 (VStr node_id) ≠ _get_pubsub_key s2 v2 e2 VNone.
Proof.
  intros Hs1 Hv1 He1 Hs2 Hv2 He2. split.
  - unfold _get_pubsub_key. cbn [truthy]. intros Hok.
    assert (join "/" [s1; py_str v1; e1] = join "/" [s2; py_str v2; e2]) as Heq by congruence.
    apply (f_equal (split slash)) in Heq.
    rewrite !split_join in Heq by (by repeat constructor).
    by injection Heq as -> -> ->.
  - intros n Hne Hn. unfold _get_pubsub_key. cbn [truthy].
    assert (String.eqb n "" = false) as -> by by apply String.eqb_neq.
    cbn [negb as_str bind]. intros Hok.
    assert (join "/" [s1; py_str v1; e1; n] = join "/" [s2; py_str v2; e2]) as Heq
      by congruence.
    apply (f_equal (split slash)) in Heq.
    rewrite !split_join in Heq by (by repeat constructor).
    discriminate Heq.
Qed.

Lemma parse_topic_join3 (service version endpoint : string) :
  lacks slash service = true → lacks slash version = true → lacks slash endpoint = true →
  parse_topic (join "/" [service; version; endpoint]) = Ok (service, version, endpoint, None).
Proof.
  intros Hs Hv He. unfold parse_topic. by rewrite split_join by (by repeat constructor).
Qed.

Lemma parse_topic_join4 (service version endpoint node_id : string) :
  lacks slash service = true → lacks slash version = true → lacks slash endpoint = true →
  lacks slash node_id = true →
  parse_topic (join "/" [service; version; endpoint; node_id])
  = Ok (service, version, endpoint, Some node_id).
Proof.
  intros Hs Hv He Hn. unfold parse_topic. by rewrite split_join by (by repeat constructor).
Qed.

(** X7. [subscription_handler] ignores the node id of a four-segment
    topic: a message on [service/version/endpoint/node_id] is handled
    exactly as one on [service/version/endpoint], whoever [node_id] names. *)
Theorem X7_handler_ignores_node_id (bus : t) (service version endpoint node_id payload : string) :
  lacks slash service = true → lacks slash version = true → lacks slash endpoint = true →
  lacks slash node_id = true →
  subscription_handler (Payload:=Payload) json_loads bus
    (join "/" [service; version; endpoint; node_id]) payload
  = subscription_handler (Payload:=Payload) json_loads bus
      (join "/" [service; version; endpoint]) payload.
Proof.
  intros Hs Hv He Hn. unfold subscription_handler.
  by rewrite parse_topic_join3, parse_topic_join4.
Qed.


(** X9. The handler compares a client's version with the topic's version
    string: when no local client has a string version (integer versions,
    say), no message is ever dispatched - every call raises [ValueError] or
    [IndexError]. *)
Theorem X9_handler_needs_string_versions (bus : t) (clients : list ServiceClient)
    (topic payload : string) :
  _clients bus = Some clients →
  (∀ sc, sc ∈ clients → ∀ v, sc_version sc ≠ VStr v) →
  subscription_handler (Payload:=Payload) json_loads bus topic payload = Raise ValueError
  ∨ subscription_handler (Payload:=Payload) json_loads bus topic payload = Raise IndexError.
Proof.
  intros Hc Hver. unfold subscription_handler.
  destruct (parse_topic topic) as [[[[service version] endpoint] node]|e] eqn:Hp.
  - right. cbn [bind]. rewrite Hc. cbn [bind].
    rewrite no_matching_client; [done|]. intros sc Hin [_ Hv]. by apply (Hver sc Hin version).
  - left. cbn [bind]. by rewrite (parse_topic_raises _ _ Hp).
Qed.

End Handling.

Lemma X6_pubsub_key_injective_witness :
  PubSubBus._get_pubsub_key "serviceA" (VInt 1) "onEvent" (VStr "nodeY")
  ≠ PubSubBus._get_pubsub_key "serviceA" (VStr "1") "onEvent" VNone.
Proof.
  exact (proj2 (X6_pubsub_key_injective "serviceA" "serviceA" (VInt 1) (VStr "1")
                  "onEvent" "onEvent" eq_refl eq_refl eq_refl eq_refl eq_refl eq_refl)
           "nodeY" ltac:(discriminate) eq_refl).
Defined.

Lemma X7_handler_ignores_node_id_witness :
  PubSubBus.subscription_handler (Payload:=unit) (Kwargs:=string) Ok
    (Samples.pubsub_bus [] [Samples2.string_version_client]) "serviceA/1/onEvent/nodeZ" "{}"
  = PubSubBus.subscription_handler (Payload:=unit) (Kwargs:=string) Ok
      (Samples.pubsub_bus [] [Samples2.string_version_client]) "serviceA/1/onEvent" "{}".
Proof.
  exact (X7_handler_ignores_node_id (Payload:=unit) (Kwargs:=string) Ok
           (Samples.pubsub_bus [] [Samples2.string_version_client])
           "serviceA" "1" "onEvent" "nodeZ" "{}" eq_refl eq_refl eq_refl eq_refl).
Defined.


Lemma X9_handler_needs_string_versions_witness :
  PubSubBus.subscription_handler (Payload:=unit) (Kwargs:=string) Ok
    (Samples.pubsub_bus [] [Samples2.int_version_client]) "serviceA/1/onEvent" "{}"
  = Raise ValueError
  ∨ PubSubBus.subscription_handler (Payload:=unit) (Kwargs:=string) Ok
      (Samples.pubsub_bus [] [Samples2.int_version_client]) "serviceA/1/onEvent" "{}"
    = Raise IndexError.
Proof.
  apply (X9_handler_needs_string_versions (Payload:=unit) (Kwargs:=string) Ok
           (Samples.pubsub_bus [] [Samples2.int_version_client])
           [Samples2.int_version_client] "serviceA/1/onEvent" "{}" eq_refl).
  intros sc Hin v Hv. apply list_elem_of_singleton in Hin. subst sc. discriminate Hv.
Defined.

(** ** Registering subscriptions *)

Section Registering.
Import PubSubBus Subscriptions Views.
Variable is_tcp_client : ServiceClient → bool.
Variable attribute : ServiceClient → string → Attribute.

Lemma scan_attribute_inv client node_id fn (lists lists' : Lists) :
  scan_attribute client node_id fn lists = Ok lists' →
  Forall2 (matches_key node_id) lists.1.2 lists.2 →
  Forall2 (matches_key node_id) lists'.1.2 lists'.2.
Proof.
  destruct lists as [[subs xreg] xredis]. unfold scan_attribute. cbn [fst snd].
  destruct (attr_callable fn && attr_is_subscribe fn).
  - destruct (attr_fn_name fn) as [f|]; [|done]. cbn [getattr_or bind].
    destruct (as_str (sc_name client)) as [service|]; [|done]. cbn [bind].
    destruct (_get_pubsub_key _ _ _ _); [|done]. cbn [bind]. by intros [= <-].
  - destruct (attr_callable fn && attr_is_xsubscribe fn); [|by intros [= <-]].
    destruct (attr_fn_name fn) as [f|]; [|done]. cbn [getattr_or bind].
    destruct (attr_strategy fn) as [strategy|]; [|done]. cbn [bind].
    destruct (sc_name client) as [|z|service] eqn:Hname; try done. cbn [as_str bind].
    destruct (_get_pubsub_key service _ f node_id) as [key|] eqn:Hkey; [|done].
    cbn [bind]. intros [= <-] Hinv. cbn [fst snd].
    apply Forall2_app; [done|]. constructor; [|constructor].
    exists service. done.
Qed.

Lemma scan_names_inv client node_id (names : list string) :
  ∀ lists lists' : Lists,
  scan_names attribute client node_id names lists = Ok lists' →
  Forall2 (matches_key node_id) lists.1.2 lists.2 →
  Forall2 (matches_key node_id) lists'.1.2 lists'.2.
Proof.
  induction names as [|each names IH]; intros lists lists'; cbn [scan_names].
  - by intros [= <-].
  - destruct (scan_attribute client node_id (attribute client each) lists) as [l1|] eqn:H1;
      [|done].
    cbn [bind]. intros Hrest Hinv. eapply IH; [done|]. by eapply scan_attribute_inv.
Qed.

Lemma scan_clients_inv (clients : list ServiceClient) node_id :
  ∀ lists lists' : Lists,
  scan_clients is_tcp_client attribute clients node_id lists = Ok lists' →
  Forall2 (matches_key node_id) lists.1.2 lists.2 →
  Forall2 (matches_key node_id) lists'.1.2 lists'.2.
Proof.
  induction clients as [|client clients IH]; intros lists lists'; cbn [scan_clients].
  - by intros [= <-].
  - destruct (is_tcp_client client); [|apply IH].
    destruct (scan_names attribute client node_id (sc_attrs client) lists) as [l1|] eqn:H1;
      [|done].
    cbn [bind]. intros Hrest Hinv. eapply IH; [done|]. by eapply scan_names_inv.
Qed.


Lemma register_sets_clients (bus : t) (host port node_id : pyval)
    (clients : list ServiceClient) :
  _clients (register_for_subscription is_tcp_client attribute bus host port node_id clients).1.1
  = Some clients.
Proof.
  unfold register_for_subscription.
  destruct (scan_clients _ _ _ _ _) as [[[subs xsubs] xtopics]|e]; [|done].
  cbn [_pubsub_handler]. by destruct (_pubsub_handler bus).
Qed.


End Registering.



(** ** One-shot HTTP requests *)

Section Http.
Import HTTPBus.
Variable str_dict : gmap string pyval → string.

Lemma select_kwargs_lookup (params : gmap string param) (k : string) :
  select_kwargs params !! k = if decide (k ∈ http_keys) then params !! k else None.
Proof.
  unfold select_kwargs. apply option_eq. intros x.
  rewrite map_lookup_filter_Some. cbn [fst].
  destruct (decide (k ∈ http_keys)); [|split; [intros [_ ?]|intros ?]; done].
  split; [by intros [? _]|by intros ?].
Qed.

Lemma send_http_request_ok (registry : TCPBus.RegistryClient)
    (app service version method entity : pyval) (params : gmap string param)
    (host port node_id service_type : pyval) (path : param) (d0 : gmap string pyval) :
  TCPBus.resolve registry service version entity "http"
    = Some (host, port, node_id, service_type) →
  params !! "path" = Some path →
  default (PDict ∅) (params !! "params") = PDict d0 →
  send_http_request str_dict registry app service version method entity params
  = (delete "params" (delete "path" params),
     Ok (mkRequest method
           ("http://" ++ py_str host ++ ":" ++ py_str port ++ param_str str_dict path)
           (<["service" := service]>
              (<["version" := version]>
                 (if decide (app = VNone) then d0 else <["app" := app]> d0)))
           (select_kwargs (delete "path" params)))).
Proof.
  intros Hr Hp Hq. unfold send_http_request. rewrite Hr, Hp.
  rewrite lookup_delete_ne by done. rewrite Hq.
  by destruct (decide (app = VNone)).
Qed.

(** X12. The request of [send_http_request] goes to
    [http://host:port] followed by the popped path, and its query
    parameters are the caller's [params['params']] (none when absent) with
    [service] and [version] always set to the call's arguments, overriding
    the caller's, and [app] set only when an app is given. *)
Theorem X12_http_query_params (registry : TCPBus.RegistryClient)
    (app service version method entity : pyval) (params : gmap string param)
    (host port node_id service_type : pyval) (path : param) (d0 : gmap string pyval) :
  TCPBus.resolve registry service version entity "http"
    = Some (host, port, node_id, service_type) →
  params !! "path" = Some path →
  default (PDict ∅) (params !! "params") = PDict d0 →
  ∃ req,
    (send_http_request str_dict registry app service version method entity params).2 = Ok req
    ∧ req_method req = method
    ∧ req_url req
      = ("http://" ++ py_str host ++ ":" ++ py_str port ++ param_str str_dict path)%string
    ∧ req_params req !! "service" = Some service
    ∧ req_params req !! "version" = Some version
    ∧ req_params req !! "app" = (if decide (app = VNone) then d0 !! "app" else Some app)
    ∧ ∀ k, k ≠ "app" → k ≠ "version" → k ≠ "service" → req_params req !! k = d0 !! k.
Proof.
  intros Hr Hp Hq. rewrite (send_http_request_ok _ _ _ _ _ _ _ _ _ _ _ _ _ Hr Hp Hq).
  eexists. split; [done|]. cbn [req_method req_url req_params].
  repeat split.
  - by rewrite lookup_insert_eq.
  - rewrite lookup_insert_ne, lookup_insert_eq by done. done.
  - rewrite !lookup_insert_ne by done.
    destruct (decide (app = VNone)); [done|]. by rewrite lookup_insert_eq.
  - intros k Ha Hv Hs. rewrite !lookup_insert_ne by done.
    destruct (decide (app = VNone)); [done|]. by rewrite lookup_insert_ne.
Qed.

(** X13. Only the seven keys of [http_keys] are passed on to
    [aiohttp.request], each with the caller's value; [path], [params] and
    any other key of [params] are not. *)
Theorem X13_http_kwargs_whitelist (registry : TCPBus.RegistryClient)
    (app service version method entity : pyval) (params : gmap string param)
    (host port node_id service_type : pyval) (path : param) (d0 : gmap string pyval) :
  TCPBus.resolve registry service version entity "http"
    = Some (host, port, node_id, service_type) →
  params !! "path" = Some path →
  default (PDict ∅) (params !! "params") = PDict d0 →
  ∃ req,
    (send_http_request str_dict registry app service version method entity params).2 = Ok req
    ∧ ∀ k, req_kwargs req !! k = if decide (k ∈ http_keys) then params !! k else None.
Proof.
  intros Hr Hp Hq. rewrite (send_http_request_ok _ _ _ _ _ _ _ _ _ _ _ _ _ Hr Hp Hq).
  eexists. split; [done|]. cbn [req_kwargs]. intros k.
  rewrite select_kwargs_lookup. destruct (decide (k ∈ http_keys)) as [Hk|]; [|done].
  apply lookup_delete_ne. intros <-. unfold http_keys in Hk.
  repeat (apply elem_of_cons in Hk as [Hk|Hk]; [discriminate|]).
  by apply elem_of_nil in Hk.
Qed.

(** X14. [send_http_request] consumes its [params]: when the service
    resolves, the dictionary it leaves behind has no [path], so a second
    call with the same dictionary raises [KeyError]; an unresolvable
    service raises [TypeError] and a missing [path] raises [KeyError], both
    leaving the dictionary as it was. *)
Theorem X14_http_params_consumed (registry : TCPBus.RegistryClient)
    (app service version method entity : pyval) (params : gmap string param) :
  (TCPBus.resolve registry service version entity "http" = None →
   send_http_request str_dict registry app service version method entity params
   = (params, Raise TypeError))
  ∧ (is_Some (TCPBus.resolve registry service version entity "http") →
     (params !! "path" = None →
      send_http_request str_dict registry app service version method entity params
      = (params, Raise KeyError))
     ∧ (send_http_request str_dict registry app service version method entity params).1
         !! "path" = None
     ∧ (send_http_request str_dict registry app service version method entity
          (send_http_request str_dict registry app service version method entity params).1).2
       = Raise KeyError).
Proof.
  split.
  - intros Hr. unfold send_http_request. by rewrite Hr.
  - intros [[[[host port] node_id] service_type] Hr].
    assert ((send_http_request str_dict registry app service version method entity params).1
              !! "path" = None) as Hleft.
    { unfold send_http_request. rewrite Hr.
      destruct (params !! "path") as [path|] eqn:Hp; cbn [fst]; [|done].
      rewrite lookup_delete_ne by done. apply lookup_delete_eq. }
    split; [|split; [done|]].
    + intros Hp. unfold send_http_request. by rewrite Hr, Hp.
    + unfold send_http_request at 1. by rewrite Hr, Hleft.
Qed.

End Http.

Lemma X12_http_query_params_witness :
  ∃ req,
    (HTTPBus.send_http_request (λ _, "{}") Samples.registry_knows_nodeY
       VNone (VStr "serviceA") (VInt 1) (VStr "GET") (VStr "e1") Samples3.http_params).2
    = Ok req
    ∧ HTTPBus.req_url req = "http://10.0.0.2:4002/users"
    ∧ HTTPBus.req_params req !! "service" = Some (VStr "serviceA")
    ∧ HTTPBus.req_params req !! "page" = Some (VInt 2).
Proof.
  destruct (X12_http_query_params (λ _, "{}") Samples.registry_knows_nodeY
              VNone (VStr "serviceA") (VInt 1) (VStr "GET") (VStr "e1") Samples3.http_params
              (VStr "10.0.0.2") (VInt 4002) (VStr "nodeY") (VStr "tcp")
              (HTTPBus.PVal (VStr "/users"))
              (<["service" := VStr "other"]> (<["page" := VInt 2]> ∅))
              eq_refl eq_refl eq_refl)
    as (req & Hreq & _ & Hurl & Hservice & _ & _ & Hother).
  exists req. split; [exact Hreq|]. split; [exact Hurl|]. split; [exact Hservice|].
  rewrite (Hother "page") by discriminate. reflexivity.
Defined.

Lemma X13_http_kwargs_whitelist_witness :
  ∃ req,
    (HTTPBus.send_http_request (λ _, "{}") Samples.registry_knows_nodeY
       VNone (VStr "serviceA") (VInt 1) (VStr "GET") (VStr "e1") Samples3.http_params).2
    = Ok req
    ∧ HTTPBus.req_kwargs req !! "data" = Some (HTTPBus.PVal (VStr "body"))
    ∧ HTTPBus.req_kwargs req !! "timeout" = None.
Proof.
  destruct (X13_http_kwargs_whitelist (λ _, "{}") Samples.registry_knows_nodeY
              VNone (VStr "serviceA") (VInt 1) (VStr "GET") (VStr "e1") Samples3.http_params
              (VStr "10.0.0.2") (VInt 4002) (VStr "nodeY") (VStr "tcp")
              (HTTPBus.PVal (VStr "/users"))
              (<["service" := VStr "other"]> (<["page" := VInt 2]> ∅))
              eq_refl eq_refl eq_refl)
    as (req & Hreq & Hkw).
  exists req. split; [exact Hreq|]. split; [exact (Hkw "data") | exact (Hkw "timeout")].
Defined.

Lemma X14_http_params_consumed_witness :
  (HTTPBus.send_http_request (λ _, "{}") Samples.registry_knows_nodeY
     VNone (VStr "serviceA") (VInt 1) (VStr "GET") (VStr "e1")
     (HTTPBus.send_http_request (λ _, "{}") Samples.registry_knows_nodeY
        VNone (VStr "serviceA") (VInt 1) (VStr "GET") (VStr "e1") Samples3.http_params).1).2
  = Raise KeyError.
Proof.
  exact (proj2 (proj2 (proj2 (X14_http_params_consumed (λ _, "{}") Samples.registry_knows_nodeY
           VNone (VStr "serviceA") (VInt 1) (VStr "GET") (VStr "e1") Samples3.http_params)
           (mk_is_Some _ _ eq_refl)))).
Defined.

(** ** Sending, one run and all runs *)

Section Sending.
Import TCPBus Dispatcher Views.

Lemma bus_getattr_sender (ty : string) :
  bus_getattr ("_" ++ ty ++ "_sender")
  = if decide (ty = "request") then Ok "_request_sender" else Raise AttributeError.
Proof.
  unfold bus_getattr. destruct (decide (ty = "request")) as [->|Hne].
  - reflexivity.
  - rewrite bool_decide_eq_false_2; [done|]. by rewrite sender_attribute.
Qed.

(** X15. [send] stamps the packet's [from] with the bus's host id before
    anything else, replacing whatever the caller put there, and the stamp
    stays when the call raises.  A packet of type 'request' starts
    [_request_sender] on the stamped packet; every other type name raises
    [AttributeError]: no other sender exists. *)
Theorem X15_send_dispatch (bus : t) (packet : Packet) (ty : string) :
  packet !! "type" = Some (VStr ty) →
  send bus packet
  = (<["from" := _host_id bus]> packet,
     if decide (ty = "request")
     then Ok (SpawnCall "_request_sender" (<["from" := _host_id bus]> packet))
     else Raise AttributeError)
  ∧ (send bus packet).1 !! "from" = Some (_host_id bus).
Proof.
  intros Hty. unfold send, getitem. rewrite lookup_insert_ne by done. rewrite Hty.
  cbn [bind as_str fst]. rewrite bus_getattr_sender.
  split; [by destruct (decide (ty = "request"))|]. by rewrite lookup_insert_eq.
Qed.


Lemma request_sender_sends (bus : t) (packet : Packet) :
  length (List.filter is_send (_request_sender bus packet).1.2)
  = if attempt_succeeds bus packet then 1%nat else 0%nat.
Proof.
  unfold attempt_succeeds, _request_sender.
  destruct (_get_node_id_for_packet bus packet) as [node_id|e]; [|done].
  destruct (truthy node_id), (_client_protocols bus !! node_id) as [p|]; try done.
  by destruct (is_connected p).
Qed.

Lemma retry_from_sends (buses : nat → t) (packet : Packet) (n : nat) :
  ∀ (k : nat) (wait : Z) (log : list effect),
  let '((_, log'), _, _, r) :=
    Retrial.retry_from negb (λ _, true) multiplier (attempt buses) n k wait (packet, log) in
  length (List.filter is_send log')
  = (length (List.filter is_send log) + match r with Ok true => 1 | _ => 0 end)%nat.
Proof.
  induction n as [|n IH]; intros k wait log.
  - cbn. lia.
  - cbn [Retrial.retry_from]. unfold attempt at 1. cbn [fst snd].
    pose proof (request_sender_sends (buses k) packet) as Hs.
    destruct (attempt_succeeds (buses k) packet) eqn:Hk.
    + pose proof (request_sender_succeeded _ _ Hk) as Hr.
      destruct (_request_sender (buses k) packet) as [[p1 l1] r1]. cbn [fst snd] in Hr, Hs.
      subst r1. cbn. rewrite List.filter_app, length_app. lia.
    + pose proof (request_sender_failed _ _ Hk) as [Hp Hr].
      destruct (_request_sender (buses k) packet) as [[p1 l1] r1]. cbn [fst snd] in Hp, Hr, Hs.
      subst p1. rewrite Hr. destruct n as [|n'].
      * rewrite List.filter_app, length_app. lia.
      * specialize (IH (S k) (wait * multiplier) (log ++ l1)%list).
        destruct (Retrial.retry_from _ _ _ _ (S n') (S k) _ _) as [[[[p2 log2] delays] m] r'].
        rewrite IH, List.filter_app, length_app. lia.
Qed.

(** X17. Under the retry loop of the decorated [_request_sender], the
    packet is handed to a protocol at most once over all runs: exactly once
    when the call returns [True], never when it ends in the terminal
    exception. *)
Theorem X17_request_sender_sends_once (buses : nat → t) (base_delay : Z) (packet : Packet) :
  let '((_, log), _, _, r) := request_sender buses base_delay packet in
  length (List.filter is_send log) = match r with Ok true => 1%nat | _ => 0%nat end.
Proof.
  unfold request_sender.
  pose proof (retry_from_sends buses packet max_attempts 0%nat base_delay []) as H.
  destruct (Retrial.retry_from _ _ _ _ _ _ _ _) as [[[[p log] delays] m] r].
  exact H.
Qed.

(** X18. A packet that lacks [name], [version] or [entity] is never sent:
    every run raises [KeyError], which the decorator retries like any other
    exception, so the call ends after 5 runs in the terminal exception. *)
Theorem X18_request_sender_missing_address (buses : nat → t) (base_delay : Z)
    (packet : Packet) :
  packet !! "name" = None ∨ packet !! "version" = None ∨ packet !! "entity" = None →
  (∀ bus, _request_sender bus packet = (packet, [], Raise KeyError))
  ∧ (request_sender buses base_delay packet).2 = Raise RetriesExceeded
  ∧ (request_sender buses base_delay packet).1.2 = 5%nat.
Proof.
  intros Hmiss.
  assert (∀ bus, _request_sender bus packet = (packet, [], Raise KeyError)) as Hrun.
  { intros bus. unfold _request_sender, _get_node_id_for_packet, getitem.
    destruct (packet !! "name"); [|done]. cbn [bind].
    destruct (packet !! "version"); [|done]. cbn [bind].
    destruct (packet !! "entity"); [|done]. by destruct Hmiss as [?|[?|?]]. }
  split; [done|].
  assert (∀ k, attempt_succeeds (buses k) packet = false) as Hfail.
  { intros k. unfold attempt_succeeds. by rewrite Hrun. }
  unfold request_sender.
  pose proof (retry_from_request_sender buses packet max_attempts 0%nat base_delay []) as H.
  destruct (Retrial.retry_from _ _ _ _ _ _ _ _) as [[[st delays] m] r].
  destruct H as (_ & _ & [(-> & -> & _)|(_ & _ & Hok & _)]); [done|].
  by rewrite Hfail in Hok.
Qed.

End Sending.

Lemma X15_send_dispatch_witness :
  (TCPBus.send (Samples.tcp_bus Samples.registry_empty ∅)
     (<["type" := VStr "event"]> (<["from" := VStr "forged"]> Samples.request_packet))).2
  = Raise AttributeError.
Proof.
  exact (f_equal snd (proj1 (X15_send_dispatch (Samples.tcp_bus Samples.registry_empty ∅)
           (<["type" := VStr "event"]> (<["from" := VStr "forged"]> Samples.request_packet))
           "event" eq_refl))).
Defined.

Lemma X18_request_sender_missing_address_witness :
  (Dispatcher.request_sender
     (λ _, Samples.tcp_bus Samples.registry_knows_nodeY
             {[ VStr "nodeY" := Samples.live_protocol ]})
     1 (delete "entity" Samples.request_packet)).2 = Raise RetriesExceeded.
Proof.
  exact (proj1 (proj2 (X18_request_sender_missing_address
           (λ _, Samples.tcp_bus Samples.registry_knows_nodeY
                   {[ VStr "nodeY" := Samples.live_protocol ]})
           1 (delete "entity" Samples.request_packet)
           (or_intror (or_intror eq_refl))))).
Defined.

(** ** The bus over sequences of events *)

Section Events.
Import TCPBus Lifecycle.

Lemma connect_addresses_only_node_clients (sc : ServiceClient) (addresses : list Address) :
  ∀ bus : t, ∃ f, (connect_addresses bus sc addresses).1.1 = set_node_clients f bus.
Proof.
  induction addresses as [|[[[host port] node_id] service_type] rest IH]; intros bus.
  - exists (λ m, m). by destruct bus.
  - cbn [connect_addresses]. destruct (py_eq service_type (VStr "tcp")); [|apply IH].
    rewrite connect_to_client_bound.
    destruct (IH (set_node_clients <[node_id := sc]> bus)) as [f Hf].
    destruct (connect_addresses _ sc rest) as [[bus2 futures] r]. cbn [fst] in *.
    exists (λ m, f (<[node_id := sc]> m)). rewrite Hf. by destruct bus.
Qed.

Lemma connect_clients_only_node_clients (clients : list ServiceClient) :
  ∀ bus : t, ∃ f, (connect_clients bus clients).1.1 = set_node_clients f bus.
Proof.
  induction clients as [|sc rest IH]; intros bus.
  - exists (λ m, m). by destruct bus.
  - cbn [connect_clients].
    destruct (connect_addresses_only_node_clients sc
                (get_all_addresses (_registry_client bus) (sc_properties sc)) bus) as [f1 H1].
    pose proof (connect_addresses_spec sc
                  (get_all_addresses (_registry_client bus) (sc_properties sc)) bus)
      as (Hr & _).
    destruct (connect_addresses bus sc _) as [[bus1 futures1] r1]. cbn [fst snd] in *.
    subst r1 bus1.
    destruct (IH (set_node_clients f1 bus)) as [f2 H2].
    destruct (connect_clients _ rest) as [[bus2 futures2] r2]. cbn [fst] in *.
    exists (λ m, f2 (f1 m)). rewrite H2. by destruct bus.
Qed.

(** What one event can change: node clients and connection entries are
    added or replaced, pingers only removed, the flag only raised. *)
Lemma after_keeps (bus : t) (ev : event) :
  _registry_client (after bus ev) = _registry_client bus
  ∧ _service_clients (after bus ev) = _service_clients bus
  ∧ tcp_host (after bus ev) = tcp_host bus
  ∧ _host_id (after bus ev) = _host_id bus
  ∧ (∀ node, _pingers bus !! node = None → _pingers (after bus ev) !! node = None)
  ∧ (∀ node protocol,
       _client_protocols (after bus ev) !! node = Some protocol →
       _client_protocols bus !! node = Some protocol
       ∨ ∃ attempt, ev = ConnectionDone attempt (Ok protocol) ∧ cb_node_id attempt = node)
  ∧ (∀ node, is_Some (_client_protocols bus !! node) →
       is_Some (_client_protocols (after bus ev) !! node)).
Proof.
  destruct ev as [|service version host port node_id type|attempt outcome|node_id];
    cbn [after].
  - unfold registration_complete. destruct (_registered bus) eqn:Hreg.
    + repeat split; auto.
    + unfold _create_service_clients.
      destruct (connect_clients_only_node_clients (_service_clients bus) bus) as [f Hf].
      pose proof (connect_clients_spec (_service_clients bus) bus) as (Hr & _).
      destruct (connect_clients bus (_service_clients bus)) as [[bus1 futures] r].
      cbn [fst snd] in *. subst r bus1. cbn. repeat split; auto.
  - unfold new_instance. destruct (filter _ _) as [|sc scs]; [repeat split; auto|].
    destruct (py_eq type (VStr "tcp")); [|repeat split; auto].
    rewrite connect_to_client_bound. cbn. repeat split; auto.
  - unfold attempt_done, _service_client_connection_callback.
    destruct outcome as [protocol|e]; cbn [bind]; [|repeat split; auto].
    cbn. repeat split; auto.
    + intros node p. rewrite lookup_insert. destruct (decide _) as [<-|]; [|by left].
      intros [= <-]. right. by exists attempt.
    + intros node Hsome. rewrite lookup_insert. by destruct (decide _).
  - unfold handle_ping_timeout. cbn [set_pingers _registry_client].
    destruct (get_for_node (_registry_client bus) node_id) as [[[[host port] nid] ty]|];
      cbn; repeat split; auto; intros node Hnone;
      (destruct (decide (node_id = node)) as [->|];
       [apply lookup_delete_eq|by rewrite lookup_delete_ne]).
Qed.

Lemma run_snoc (bus : t) (events : list event) (ev : event) :
  run bus (events ++ [ev]) = after (run bus events) ev.
Proof. unfold run. by rewrite fold_left_app. Qed.

(** X19. Control packets.  A ping is answered with a pong for its node id
    on the protocol it came in on, whatever the bus hosts and whatever the
    packet's address.  No event of the bus ever adds a pinger, so on a bus
    that started without pingers a pong for any node raises [KeyError],
    after any sequence of events. *)
Theorem X19_control_packets (bus : t) (events : list event) (packet : Packet)
    (protocol : Protocol) (node_id : pyval) :
  _pingers bus = ∅ →
  packet !! "node_id" = Some node_id →
  (packet !! "type" = Some (VStr "ping") →
   receive (run bus events) packet protocol = Ok [SendPong protocol node_id])
  ∧ (packet !! "type" = Some (VStr "pong") →
     is_Some (packet !! "count") →
     receive (run bus events) packet protocol = Raise KeyError).
Proof.
  intros Hempty Hnode.
  assert (_pingers (run bus events) !! node_id = None) as Hnone.
  { induction events as [|ev events IH] using rev_ind.
    - cbn. by rewrite Hempty.
    - rewrite run_snoc. by apply after_keeps. }
  split.
  - intros Hty. unfold receive, getitem. rewrite Hty. cbn [bind].
    change (py_eq (VStr "ping") (VStr "ping")) with true. cbv iota.
    unfold _handle_ping, getitem. by rewrite Hnode.
  - intros Hty [count Hcount]. unfold receive, getitem. rewrite Hty. cbn [bind].
    change (py_eq (VStr "pong") (VStr "ping")) with false.
    change (py_eq (VStr "pong") (VStr "pong")) with true. cbv iota.
    rewrite Hnode, Hcount. cbn [bind]. unfold _handle_pong, getitem. by rewrite Hnone.
Qed.

(** X20. No event removes a connection entry: a node that has a protocol
    in the table keeps having one through any sequence of events (a ping
    timeout leaves the dead one in place), and a protocol found in the
    table afterwards was there before or was recorded by the successful
    completion of an attempt for that node. *)
Theorem X20_connection_entries_stay (bus : t) (events : list event) (node : pyval) :
  (is_Some (_client_protocols bus !! node) →
   is_Some (_client_protocols (run bus events) !! node))
  ∧ ∀ protocol,
      _client_protocols (run bus events) !! node = Some protocol →
      _client_protocols bus !! node = Some protocol
      ∨ ∃ attempt, ConnectionDone attempt (Ok protocol) ∈ events
                   ∧ cb_node_id attempt = node.
Proof.
  induction events as [|ev events [IH1 IH2]] using rev_ind.
  - split; [done|]. intros protocol Hp. by left.
  - rewrite run_snoc.
    destruct (after_keeps (run bus events) ev) as (_ & _ & _ & _ & _ & Hfrom & Hstay).
    split.
    + intros Hsome. by apply Hstay, IH1.
    + intros protocol Hp. destruct (Hfrom _ _ Hp) as [Hold|(attempt & -> & Hn)].
      * destruct (IH2 _ Hold) as [?|(attempt & Hin & Hn)]; [by left|].
        right. exists attempt. split; [|done]. rewrite elem_of_app. by left.
      * right. exists attempt. split; [|done]. rewrite elem_of_app. right. by left.
Qed.

(** X21. [registration_complete] connects once: the first call returns
    normally with the attempts of [_create_service_clients] and sets the
    flag; every later call, after whatever events, schedules nothing and
    changes nothing. *)
Theorem X21_registration_complete_once (bus : t) (events : list event) :
  let '(bus1, attempts, r) := registration_complete bus in
  r = Ok tt
  ∧ _registered bus1 = true
  ∧ (_registered bus = false →
     attempts = flat_map (tcp_attempts (_registry_client bus)) (_service_clients bus))
  ∧ registration_complete (run bus1 events) = (run bus1 events, [], Ok tt).
Proof.
  assert (∀ b, _registered b = true → _registered (run b events) = true) as Hkeep.
  { intros b Hb. induction events as [|ev events IH] using rev_ind; [done|].
    rewrite run_snoc. revert IH. generalize (run b events). intros b' Hb'.
    destruct ev as [|service version host port node_id type|attempt outcome|node_id];
      cbn [after].
    - unfold registration_complete. by rewrite Hb'.
    - unfold new_instance. destruct (filter _ _) as [|sc scs]; [done|].
      destruct (py_eq type (VStr "tcp")); [|done]. by rewrite connect_to_client_bound.
    - unfold attempt_done, _service_client_connection_callback. by destruct outcome.
    - unfold handle_ping_timeout. cbn [set_pingers _registry_client].
      by destruct (get_for_node _ _) as [[[[? ?] ?] ?]|]. }
  unfold registration_complete at 1. destruct (_registered bus) eqn:Hreg.
  - split; [done|]. split; [done|]. split; [done|].
    unfold registration_complete. by rewrite (Hkeep bus Hreg).
  - unfold _create_service_clients.
    pose proof (connect_clients_spec (_service_clients bus) bus) as (Hr & Ha & _).
    destruct (connect_clients bus (_service_clients bus)) as [[bus1 futures] r].
    cbn [fst snd] in *. subst r. split; [done|]. split; [done|]. split; [done|].
    unfold registration_complete. by rewrite Hkeep.
Qed.

End Events.

Lemma X19_control_packets_witness :
  TCPBus.receive
    (Lifecycle.run (Samples.tcp_bus Samples.registry_knows_nodeY ∅)
       [Lifecycle.RegistrationComplete; Lifecycle.PingTimeout (VStr "nodeY")])
    (<["type" := VStr "pong"]> (<["node_id" := VStr "nodeY"]> (<["count" := VInt 3]> ∅)))
    Samples.live_protocol
  = Raise KeyError.
Proof.
  exact (proj2 (X19_control_packets (Samples.tcp_bus Samples.registry_knows_nodeY ∅)
                  [Lifecycle.RegistrationComplete; Lifecycle.PingTimeout (VStr "nodeY")]
                  (<["type" := VStr "pong"]>
                     (<["node_id" := VStr "nodeY"]> (<["count" := VInt 3]> ∅)))
                  Samples.live_protocol (VStr "nodeY") eq_refl eq_refl)
           eq_refl (mk_is_Some _ _ eq_refl)).
Defined.

(** ** New replicas and bootstrap bookkeeping *)

Section Replicas.
Import TCPBus Dispatcher.

Lemma filter_first_match {A} (P : A → Prop) `{∀ x, Decision (P x)} (l : list A) (x : A) :
  x ∈ l → P x → ∃ y rest, filter P l = y :: rest ∧ y ∈ l ∧ P y.
Proof.
  induction l as [|a l IH]; intros Hin Hx; [by apply elem_of_nil in Hin|].
  rewrite filter_cons. destruct (decide (P a)) as [Ha|Ha].
  - exists a, (filter P l). split; [done|]. split; [by left|done].
  - apply elem_of_cons in Hin as [->|Hin]; [done|].
    destruct (IH Hin Hx) as (y & rest & -> & Hy & HPy).
    exists y, rest. split; [done|]. split; [by right|done].
Qed.

(** X22. A new TCP replica, connected, is reachable.  For a service the
    bus has a client for, [new_instance] with type 'tcp' returns normally
    having scheduled one attempt for the replica's node id, bound to a
    client of that service.  Once that attempt completes with a connected
    protocol, a run of [_request_sender] on a packet whose address the
    registry resolves to the node id sends the packet, stamped with [to],
    over that protocol and returns [True]. *)
Theorem X22_new_replica_then_send (bus : t) (known : ServiceClient)
    (service version host port node_id : pyval) :
  known ∈ _service_clients bus →
  sc_name known = service →
  sc_version known = version →
  ∃ attempt,
    (new_instance bus service version host port node_id (VStr "tcp")).1.2 = [Connect attempt]
    ∧ (new_instance bus service version host port node_id (VStr "tcp")).2 = Ok tt
    ∧ cb_node_id attempt = node_id
    ∧ cb_client attempt ∈ _service_clients bus
    ∧ sc_name (cb_client attempt) = service
    ∧ sc_version (cb_client attempt) = version
    ∧ ∀ (protocol : Protocol) (packet : Packet) (name pversion entity : pyval),
        is_connected protocol = true →
        truthy node_id = true →
        packet !! "name" = Some name →
        packet !! "version" = Some pversion →
        packet !! "entity" = Some entity →
        resolved_node_id bus name pversion entity = node_id →
        _request_sender
          (attempt_done (new_instance bus service version host port node_id (VStr "tcp")).1.1
             attempt (Ok protocol))
          packet
        = (<["to" := node_id]> packet,
           [ProtocolSend protocol (<["to" := node_id]> packet)], Ok true).
Proof.
  intros Hin Hname Hver. unfold new_instance.
  destruct (filter_first_match
              (λ sc, py_eq (sc_name sc) service && py_eq (sc_version sc) version = true)
              (_service_clients bus) known Hin) as (sc & rest & -> & Hsc & Hmatch).
  { rewrite Hname, Hver. unfold py_eq. by rewrite !bool_decide_eq_true_2. }
  apply andb_prop in Hmatch as [Hn Hv]. unfold py_eq in Hn, Hv.
  apply bool_decide_eq_true_1 in Hn. apply bool_decide_eq_true_1 in Hv.
  change (py_eq (VStr "tcp") (VStr "tcp")) with true. cbv iota.
  rewrite connect_to_client_bound. cbn [fst snd].
  eexists. repeat split; try done.
  intros protocol packet name pversion entity Hc Ht Hpn Hpv Hpe Hres.
  unfold _request_sender.
  rewrite (get_node_id_for_packet_eq _ packet name pversion entity Hpn Hpv Hpe).
  unfold attempt_done, _service_client_connection_callback. cbn [bind cb_node_id].
  change (resolved_node_id (set_client_protocols _ (set_node_clients _ bus)) name pversion entity)
    with (resolved_node_id bus name pversion entity).
  rewrite Hres, Ht. cbn [set_client_protocols _client_protocols].
  rewrite lookup_insert_eq, Hc. done.
Qed.

(** X23. For a service the bus has no client for, [new_instance] raises
    [StopIteration] whatever the replica's type (also for an HTTP replica),
    changing nothing and scheduling nothing; for a known service a replica
    whose type is not 'tcp' is ignored. *)
Theorem X23_new_instance_unknown_or_not_tcp (bus : t)
    (service version host port node_id type : pyval) :
  ((∀ sc, sc ∈ _service_clients bus → ¬ (sc_name sc = service ∧ sc_version sc = version)) →
   new_instance bus service version host port node_id type = (bus, [], Raise StopIteration))
  ∧ ((∃ sc, sc ∈ _service_clients bus ∧ sc_name sc = service ∧ sc_version sc = version) →
     type ≠ VStr "tcp" →
     new_instance bus service version host port node_id type = (bus, [], Ok tt)).
Proof.
  split.
  - intros Hno. unfold new_instance. rewrite filter_none; [done|].
    intros sc Hin Hm. apply (Hno sc Hin).
    apply andb_prop in Hm as [Hn Hv]. unfold py_eq in Hn, Hv.
    by split; eapply bool_decide_eq_true_1.
  - intros (known & Hin & Hn & Hv) Htype. unfold new_instance.
    destruct (filter_first_match
                (λ sc, py_eq (sc_name sc) service && py_eq (sc_version sc) version = true)
                (_service_clients bus) known Hin) as (sc & rest & -> & _ & _).
    { rewrite Hn, Hv. unfold py_eq. by rewrite !bool_decide_eq_true_2. }
    unfold py_eq. by rewrite bool_decide_eq_false_2.
Qed.

Lemma connect_addresses_node_clients (sc : ServiceClient) (addresses : list Address) :
  ∀ (bus : t) (node : pyval),
  is_Some (_node_clients (connect_addresses bus sc addresses).1.1 !! node)
  ↔ is_Some (_node_clients bus !! node)
    ∨ node ∈ cb_node_id <$> (connect_addresses bus sc addresses).1.2.
Proof.
  induction addresses as [|[[[host port] node_id] service_type] rest IH]; intros bus node.
  - cbn. rewrite elem_of_nil. tauto.
  - cbn [connect_addresses]. destruct (py_eq service_type (VStr "tcp")); [|apply IH].
    rewrite connect_to_client_bound.
    specialize (IH (set_node_clients <[node_id := sc]> bus) node).
    destruct (connect_addresses _ sc rest) as [[bus2 futures] r]. cbn [fst snd] in *.
    rewrite IH. cbn [set_node_clients _node_clients]. rewrite lookup_insert_is_Some.
    rewrite fmap_cons, elem_of_cons. cbn [cb_node_id].
    destruct (decide (node_id = node)) as [->|Hne]; [tauto|]. split.
    + intros [[?|[_ ?]]|?]; [done|by left|by right; right].
    + intros [?|[?|?]]; [left; right; done|congruence|by right].
Qed.

Lemma connect_clients_node_clients (clients : list ServiceClient) :
  ∀ (bus : t) (node : pyval),
  is_Some (_node_clients (connect_clients bus clients).1.1 !! node)
  ↔ is_Some (_node_clients bus !! node)
    ∨ node ∈ cb_node_id <$> (connect_clients bus clients).1.2.
Proof.
  induction clients as [|sc rest IH]; intros bus node.
  - cbn. rewrite elem_of_nil. tauto.
  - cbn [connect_clients].
    pose proof (connect_addresses_node_clients sc
                  (get_all_addresses (_registry_client bus) (sc_properties sc)) bus node) as H1.
    pose proof (connect_addresses_spec sc
                  (get_all_addresses (_registry_client bus) (sc_properties sc)) bus)
      as (Hr & _).
    destruct (connect_addresses bus sc _) as [[bus1 futures1] r1]. cbn [fst snd] in *.
    subst r1. specialize (IH bus1 node).
    destruct (connect_clients bus1 rest) as [[bus2 futures2] r2]. cbn [fst snd] in *.
    rewrite IH, H1, fmap_app, elem_of_app. tauto.
Qed.

(** X24. Bootstrap bookkeeping: after [_create_service_clients] a node id
    has a node client exactly when it had one before or an attempt was
    scheduled for it; every attempt is for an address of type 'tcp' that
    the registry lists for one of the bus's service clients, with that
    client both as protocol factory argument and as callback client.
    Replicas of any other type get neither an attempt nor a node client. *)
Theorem X24_bootstrap_node_clients (bus : t) :
  let '(bus', attempts, _) := _create_service_clients bus in
  (∀ node,
     is_Some (_node_clients bus' !! node)
     ↔ is_Some (_node_clients bus !! node) ∨ node ∈ cb_node_id <$> attempts)
  ∧ ∀ a, a ∈ attempts →
      cb_service_type a = VStr "tcp"
      ∧ ca_client a = cb_client a
      ∧ cb_client a ∈ _service_clients bus
      ∧ (ca_host a, ca_port a, cb_node_id a, cb_service_type a)
        ∈ get_all_addresses (_registry_client bus) (sc_properties (cb_client a)).
Proof.
  unfold _create_service_clients.
  pose proof (connect_clients_node_clients (_service_clients bus) bus) as Hdom.
  pose proof (connect_clients_spec (_service_clients bus) bus) as (_ & Ha & _).
  destruct (connect_clients bus (_service_clients bus)) as [[bus' attempts] r].
  cbn [fst snd] in *. split; [done|]. subst attempts.
  intros a Hin. apply list_elem_of_In, in_flat_map in Hin as (sc & Hsc & Hin).
  apply list_elem_of_In in Hsc. apply list_elem_of_In in Hin.
  unfold tcp_attempts in Hin.
  apply list_elem_of_fmap in Hin as ([[[host port] node_id] ty] & -> & Hin).
  apply list_elem_of_filter in Hin as [Htcp Hin]. cbn [snd] in Htcp.
  unfold py_eq in Htcp. apply bool_decide_eq_true_1 in Htcp. subst ty.
  cbn. done.
Qed.

End Replicas.

Lemma X22_new_replica_then_send_witness :
  ∃ attempt,
    (TCPBus.new_instance (Samples.tcp_bus Samples.registry_knows_nodeY ∅)
       (VStr "serviceA") (VInt 1) (VStr "10.0.0.2") (VInt 4002) (VStr "nodeY")
       (VStr "tcp")).1.2 = [TCPBus.Connect attempt]
    ∧ TCPBus.cb_node_id attempt = VStr "nodeY".
Proof.
  destruct (X22_new_replica_then_send (Samples.tcp_bus Samples.registry_knows_nodeY ∅)
              Samples.serviceA_tcp_client (VStr "serviceA") (VInt 1)
              (VStr "10.0.0.2") (VInt 4002) (VStr "nodeY")
              ltac:(by left) eq_refl eq_refl)
    as (attempt & Heff & _ & Hnode & _).
  exists attempt. split; [exact Heff | exact Hnode].
Defined.

Lemma X23_new_instance_unknown_or_not_tcp_witness :
  TCPBus.new_instance (Samples.tcp_bus Samples.registry_knows_nodeY ∅)
    (VStr "serviceZ") (VInt 1) (VStr "10.0.0.7") (VInt 8080) (VStr "nodeW") (VStr "http")
  = (Samples.tcp_bus Samples.registry_knows_nodeY ∅, [], Raise StopIteration).
Proof.
  apply (proj1 (X23_new_instance_unknown_or_not_tcp
                  (Samples.tcp_bus Samples.registry_knows_nodeY ∅)
                  (VStr "serviceZ") (VInt 1) (VStr "10.0.0.7") (VInt 8080) (VStr "nodeW")
                  (VStr "http"))).
  intros sc Hin [Hn _]. apply list_elem_of_singleton in Hin. subst sc. discriminate Hn.
Defined.

(** ** Ping timeouts *)

Section PingTimeouts.
Import TCPBus.

(** X25. A ping timeout does not reconnect and does not touch sending.
    When the registry still knows the replica, [handle_ping_timeout]
    raises [TypeError] - its call of [_connect_to_client] lacks the service
    client - and schedules no connection attempt.  In every case the bus
    it leaves behind sends requests exactly as before: a run of
    [_request_sender] gives the same packet, log and outcome. *)
Theorem X25_ping_timeout_no_reconnect (bus : t) (node_id : pyval) :
  (is_Some (get_for_node (_registry_client bus) node_id) →
   (handle_ping_timeout bus node_id).2 = Raise TypeError
   ∧ ∀ attempt, Connect attempt ∉ (handle_ping_timeout bus node_id).1.2)
  ∧ ∀ packet : Packet,
      _request_sender (handle_ping_timeout bus node_id).1.1 packet
      = _request_sender bus packet.
Proof.
  unfold handle_ping_timeout. cbn [set_pingers _registry_client]. split.
  - intros [[[[host port] nid] ty] ->]. cbn. split; [done|].
    intros attempt Hin. rewrite !elem_of_cons, elem_of_nil in Hin.
    by destruct Hin as [?|[?|?]].
  - intros packet.
    by destruct (get_for_node (_registry_client bus) node_id) as [[[[host port] nid] ty]|].
Qed.

End PingTimeouts.

Lemma X25_ping_timeout_no_reconnect_witness :
  (TCPBus.handle_ping_timeout
     (Samples.tcp_bus Samples.registry_knows_nodeY {[ VStr "nodeY" := Samples.live_protocol ]})
     (VStr "nodeY")).2 = Raise TypeError.
Proof.
  exact (proj1 (proj1 (X25_ping_timeout_no_reconnect
                  (Samples.tcp_bus Samples.registry_knows_nodeY
                     {[ VStr "nodeY" := Samples.live_protocol ]})
                  (VStr "nodeY")) (mk_is_Some _ _ eq_refl))).
Defined.
